(** * crispdm_data_understanding_class/class_data_understanding.py

    A shallow embedding of the data-understanding driver script:
    [clean_filename], the sheet selection of [main], the column-name
    normalisation and the export of the profiling tables, together with
    the properties the specification states about them. *)

From Stdlib Require Import ZArith NArith Ascii String.
From stdpp Require Import base decidable option list gmap.

Local Open Scope N_scope.

(** ** Python strings

    A Python [str] is a sequence of Unicode code points; [len] counts
    code points.  A code point is an [N]. *)

Abbreviation char := N.
Abbreviation pystr := (list char).

(** An ASCII literal of the source, as code points. *)
Definition lit (s : string) : pystr :=
  List.map N_of_ascii (list_ascii_of_string s).

Module Str.

(** [len(s)] *)
Definition len (s : pystr) : N := N.of_nat (length s).

(** [s[:n]] for a non-negative [n]. *)
Definition slice_to (n : nat) (s : pystr) : pystr := take n s.

(** [str.isspace] on one code point, the set that [str.strip()] removes
    (CPython's [_PyUnicode_IsWhitespace]). *)
Definition isspace (c : char) : bool :=
  ((0x09 <=? c) && (c <=? 0x0D))
  || ((0x1C <=? c) && (c <=? 0x20))
  || (c =? 0x85) || (c =? 0xA0) || (c =? 0x1680)
  || ((0x2000 <=? c) && (c <=? 0x200A))
  || (c =? 0x2028) || (c =? 0x2029) || (c =? 0x202F)
  || (c =? 0x205F) || (c =? 0x3000).

(** [s.lstrip(chars)], [s.rstrip(chars)], [s.strip(chars)], the set
    [chars] given as a predicate. *)
Fixpoint lstrip (p : char -> bool) (s : pystr) : pystr :=
  match s with
  | [] => []
  | c :: r => if p c then lstrip p r else s
  end.

Definition rstrip (p : char -> bool) (s : pystr) : pystr :=
  rev (lstrip p (rev s)).

Definition strip (p : char -> bool) (s : pystr) : pystr :=
  rstrip p (lstrip p s).

(** [s.replace(old, new)] for one-character [old] and [new]. *)
Definition replace (old new : char) (s : pystr) : pystr :=
  List.map (fun c => if c =? old then new else c) s.

End Str.

(** ** The two regular expressions of [clean_filename] *)

Module Re.

(** [re.sub(cls, repl, s)] where [cls] is a character class: every
    character of the class is one match. *)
Fixpoint sub_class (cls : char -> bool) (repl : pystr) (s : pystr) : pystr :=
  match s with
  | [] => []
  | c :: r => if cls c then repl ++ sub_class cls repl r
              else c :: sub_class cls repl r
  end.

(** [re.sub(c+, repl, s)]: matches are found left to right and [+] is
    greedy, so each match is a maximal run.  [inside] tells that the
    previous character belonged to the match being consumed. *)
Fixpoint sub_plus_from (inside : bool) (cls : char -> bool) (repl : pystr)
    (s : pystr) : pystr :=
  match s with
  | [] => []
  | c :: r =>
      if cls c then
        if inside then sub_plus_from true cls repl r
        else repl ++ sub_plus_from true cls repl r
      else c :: sub_plus_from false cls repl r
  end.

Definition sub_plus := sub_plus_from false.

End Re.

(** ** [clean_filename] *)

Definition underscore : char := 95.

(** The character class of the first pattern: slash 47, less-than 60,
    greater-than 62, colon 58, double quote 34, vertical bar 124,
    question mark 63 and asterisk 42. *)
Definition forbidden (c : char) : bool :=
  (c =? 47) || (c =? 60) || (c =? 62) || (c =? 58)
  || (c =? 34) || (c =? 124) || (c =? 63) || (c =? 42).

Definition is_underscore (c : char) : bool := c =? underscore.

Definition clean_filename (filename : pystr) : pystr :=
  let clean := Re.sub_class forbidden [underscore] filename in
  let clean :=
    if 100 <? Str.len clean
    then Str.slice_to 97 clean ++ lit "..."
    else clean in
  let clean := Re.sub_plus is_underscore [underscore] clean in
  Str.strip is_underscore clean.

(** The claim's wording of the same function, for comparison with the
    source: replace, collapse, trim, and only then limit the length. *)
Definition clean_filename_spec (filename : pystr) : pystr :=
  let clean := Re.sub_class forbidden [underscore] filename in
  let clean := Re.sub_plus is_underscore [underscore] clean in
  let clean := Str.strip is_underscore clean in
  if 100 <? Str.len clean
  then Str.slice_to 97 clean ++ lit "..."
  else clean.

(** The three steps of [clean_filename] by name. *)
Definition replaced (filename : pystr) : pystr :=
  Re.sub_class forbidden [underscore] filename.

Definition collapse (s : pystr) : pystr :=
  Re.sub_plus is_underscore [underscore] s.

Definition trim (s : pystr) : pystr := Str.strip is_underscore s.

(** The string that [clean_filename] holds after the length limit. *)
Definition limited (filename : pystr) : pystr :=
  let clean := Re.sub_class forbidden [underscore] filename in
  if 100 <? Str.len clean
  then Str.slice_to 97 clean ++ lit "..."
  else clean.

(** A run of two adjacent characters of the class [p]. *)
Fixpoint has_run2 (p : char -> bool) (s : pystr) : bool :=
  match s with
  | a :: (b :: _) as r => (p a && p b) || has_run2 p r
  | _ => false
  end.

(** Neither end of [s] is in the set [p]. *)
Definition clean_ends (p : char -> bool) (s : pystr) : Prop :=
  (forall c, head s = Some c -> p c = false)
  /\ (forall c, last s = Some c -> p c = false).

(** ** Exceptions, results *)

(** An exception object (a subclass of [Exception]): its class and its
    message.  Interrupts and [SystemExit] are outside the model. *)
Record exn := Exn { exn_class : string; exn_msg : pystr }.

Inductive result (A : Type) : Type :=
| Ok (a : A)
| Raise (e : exn).
Arguments Ok {A} a.
Arguments Raise {A} e.

(** ** [int(s)] for a [str] argument

    CPython turns every white-space character above ASCII into a blank
    and every Unicode decimal digit into its ASCII digit, then skips the
    white space of C's [isspace] at both ends, accepts one sign, and
    reads decimal digits with single underscores between digits.  A
    literal of more digits than the interpreter's limit is refused. *)

Section PyInt.

(** The Unicode database: the decimal value of a code point above
    ASCII, if it is a decimal digit. *)
Variable unicode_decimal : char -> option Z.

(** [sys.get_int_max_str_digits()]: 0 when there is no limit (as before
    Python 3.11), 4300 by default afterwards. *)
Variable max_str_digits : N.

(** The white space that [int()] skips at both ends: below 128 the
    blank and the characters 9 to 13 (not 28 to 31, which [str.strip()]
    removes); from 128 on, the white space of [str.isspace]. *)
Definition int_space (c : char) : bool :=
  if c <? 128 then ((9 <=? c) && (c <=? 13)) || (c =? 32)
  else Str.isspace c.

Definition digit_value (c : char) : option Z :=
  if Str.isspace c then None
  else if c <? 128 then
    if (48 <=? c) && (c <=? 57) then Some (Z.of_N (c - 48)) else None
  else unicode_decimal c.

Fixpoint digits_value (acc : Z) (after_digit : bool) (s : pystr) : option Z :=
  match s with
  | [] => if after_digit then Some acc else None
  | c :: r =>
      if c =? underscore then
        if after_digit then digits_value acc false r else None
      else
        match digit_value c with
        | Some d => digits_value (acc * 10 + d)%Z true r
        | None => None
        end
  end.

(** The number of digits of a literal, its underscores left out. *)
Definition digit_count (s : pystr) : N :=
  N.of_nat (length (List.filter (fun c => negb (c =? underscore)) s)).

(** The literal has more digits than the interpreter accepts. *)
Definition over_limit (digits : N) : bool :=
  (640 <? digits) && (0 <? max_str_digits) && (max_str_digits <? digits).

(** The digits after the sign. *)
Definition digits_int (s : pystr) : option Z :=
  match digits_value 0%Z false s with
  | Some z => if over_limit (digit_count s) then None else Some z
  | None => None
  end.

Definition py_int (s : pystr) : option Z :=
  match Str.strip int_space s with
  | [] => None
  | c :: r =>
      if c =? 43 then digits_int r
      else if c =? 45 then Z.opp <$> digits_int r
      else digits_int (c :: r)
  end.

End PyInt.

(** ** Tables *)

(** A sheet selector or a key of the mapping [read_any] returns: an [int]
    or a [str].  An [int] never equals a [str]. *)
Inductive key :=
| KInt (z : Z)
| KStr (s : pystr).

#[global] Instance key_eq_dec : EqDecision key.
Proof. solve_decision. Defined.

(** A column label: a [str], or another hashable object (an integer
    position, a time stamp), given by the text [str()] renders for it. *)
Inductive label :=
| LStr (s : pystr)
| LObj (rendered : pystr).

#[global] Instance label_eq_dec : EqDecision label.
Proof. solve_decision. Defined.

(** [str(c)] *)
Definition py_str (c : label) : pystr :=
  match c with
  | LStr s => s
  | LObj rendered => rendered
  end.

Inductive dtype :=
| Int64 | Float64 | Complex128 | Bool | Datetime64 | Category | Object.

(** [issubclass(dtype.type, np.number)] *)
Definition is_number (d : dtype) : bool :=
  match d with
  | Int64 | Float64 | Complex128 => true
  | _ => false
  end.

Inductive cell :=
| NA
| IntCell (z : Z)
| BoolCell (b : bool)
| StrCell (s : pystr).

Record column := Column { col_dtype : dtype; col_cells : list cell }.

(** A [DataFrame]: its columns in order, each with its label. *)
Abbreviation table := (list (label * column)).

Definition columns (t : table) : list label := List.map fst t.
Definition values (t : table) : list column := List.map snd t.

(** [df.shape[1]] *)
Definition shape1 (t : table) : N := N.of_nat (length t).

(** [df.select_dtypes(include=[np.number])] and
    [df.select_dtypes(exclude=[np.number])] *)
Definition select_number (t : table) : table :=
  List.filter (fun lc => is_number (col_dtype (snd lc))) t.

Definition select_non_number (t : table) : table :=
  List.filter (fun lc => negb (is_number (col_dtype (snd lc)))) t.

(** [df[c]]: the data under the label [c] (one column, or several when
    the label is repeated). *)
Definition getitem (c : label) (t : table) : list column :=
  values (List.filter (fun lc => bool_decide (fst lc = c)) t).

(** What [read_any] returns: one table, or a [dict] from sheet to table.
    A [dict] keeps its keys in insertion order. *)
Inductive loaded :=
| Single (t : table)
| Multiple (d : list (key * table)).

(** [list(d.keys())], [k in d], [d[k]] *)
Definition dict_keys (d : list (key * table)) : list key := List.map fst d.

Definition dict_contains (k : key) (d : list (key * table)) : bool :=
  bool_decide (k ∈ dict_keys d).

Fixpoint dict_get (k : key) (d : list (key * table)) : option table :=
  match d with
  | [] => None
  | (k', t) :: r => if decide (k' = k) then Some t else dict_get k r
  end.

(** ** Column-name normalisation, on the object store

    [df.copy()] makes a new object and the assignment to [.columns]
    updates an object in place, so the two statements are modelled on a
    store of DataFrame objects; an address is an index of the store. *)

Abbreviation store := (list table).

(** The model's answer to an address outside the store; no run of the
    script reaches it. *)
Definition no_object : exn := Exn "ReferenceError" (lit "no such object").

(** [str(c).strip().replace(" ", "_")] *)
Definition normalize_name (c : label) : pystr :=
  Str.replace 32 underscore (Str.strip Str.isspace (py_str c)).

(** [df.copy()]: a deep copy, at a fresh address. *)
Definition df_copy (df : nat) (h : store) : result (nat * store) :=
  match h !! df with
  | Some t => Ok (length h, h ++ [t])
  | None => Raise no_object
  end.

(** [df.columns] *)
Definition get_columns (df : nat) (h : store) : result (list label) :=
  match h !! df with
  | Some t => Ok (columns t)
  | None => Raise no_object
  end.

(** [df.columns = names]; pandas refuses a list of another length. *)
Definition set_columns (df : nat) (names : list label) (h : store)
    : result store :=
  match h !! df with
  | Some t =>
      if decide (length names = length t)
      then Ok (<[df := zip names (values t)]> h)
      else Raise (Exn "ValueError" (lit "Length mismatch"))
  | None => Raise no_object
  end.

(** Lines 77 and 78 of [main]; the result is the address of
    [df_cols_norm] and the store after the two statements. *)
Definition normalize_columns (df : nat) (h : store) : result (nat * store) :=
  match df_copy df h with
  | Raise e => Raise e
  | Ok (df_cols_norm, h) =>
      match get_columns df h with
      | Raise e => Raise e
      | Ok cols =>
          match set_columns df_cols_norm
                  (List.map (fun c => LStr (normalize_name c)) cols) h with
          | Raise e => Raise e
          | Ok h => Ok (df_cols_norm, h)
          end
      end
  end.

(** The two statements run on the store that holds only [df]; the value
    of [df_cols_norm] afterwards. *)
Definition normalized_copy (df : table) : result table :=
  match normalize_columns 0 [df] with
  | Raise e => Raise e
  | Ok (df_cols_norm, h) =>
      match h !! df_cols_norm with
      | Some t => Ok t
      | None => Raise no_object
      end
  end.

(** The table that the two statements leave in [df_cols_norm]. *)
Definition renamed (t : table) : table :=
  zip (List.map (fun c => LStr (normalize_name c)) (columns t)) (values t).

(** ** The world of a run: files and the log *)

Inductive flag_value :=
| FlagBool (b : bool)
| FlagCount (n : Z)
| FlagNames (names : list pystr).

(** The [dict] that [quality_flags] returns. *)
Abbreviation flags := (list (pystr * flag_value)).

(** The [dict] that [data_overview] returns. *)
Record overview :=
  Overview { ov_rows : Z; ov_cols : Z; ov_columns : list label }.

(** What a statement of the script writes to a file, named after the
    expression that renders it. *)
Inductive content :=
| CsvFrame (t : table) (index : bool)
    (* [t.to_csv(path, index=index)] *)
| CsvDescribe (num : table)
    (* [num.describe().to_csv(path)] *)
| CsvValueCounts (data : list column)
    (* [data.value_counts(dropna=False).head(20).to_csv(path)] *)
| JsonFlags (fl : flags)
    (* [json.dump(fl, f, ensure_ascii=False, indent=2)] *)
| Rendered (by_whom : string) (t : table).
    (* a file written by a collaborator *)

Inductive level := INFO | WARNING | ERROR.

(** A piece of a formatted log message: literal text, or a formatted
    value (before [str()] or [repr()] renders it). *)
Inductive frag :=
| Lit (s : pystr)
| FStr (s : pystr)
| FInt (z : Z)
| FKey (k : key)
| FKeys (ks : list key)
| FLabel (c : label)
| FLabels (cs : list label)
| FFlags (fl : flags)
| FExn (e : exn).

Record world := World {
  files : gmap pystr content;
  log : list (level * list frag)
}.

(** A statement: it runs in a world, returns or raises, and leaves a
    world. *)
Definition M (A : Type) : Type := world -> result A * world.

Definition ret {A} (a : A) : M A := fun w => (Ok a, w).

Definition raise {A} (e : exn) : M A := fun w => (Raise e, w).

Definition bind {A B} (m : M A) (k : A -> M B) : M B :=
  fun w =>
    match m w with
    | (Ok a, w') => k a w'
    | (Raise e, w') => (Raise e, w')
    end.

Definition lift {A} (r : result A) : M A := fun w => (r, w).

(** [try: body  except Exception as e: handler(e)] *)
Definition try_except {A} (body : M A) (handler : exn -> M A) : M A :=
  fun w =>
    match body w with
    | (Ok a, w') => (Ok a, w')
    | (Raise e, w') => handler e w'
    end.

Declare Scope py_scope.
Delimit Scope py_scope with py.
Notation "'let*' x ':=' m 'in' k" := (bind m (fun x => k))
  (at level 10, x name, m at level 100, k at level 200) : py_scope.
Notation "m '>>' k" := (bind m (fun _ => k))
  (at level 100, k at level 200, right associativity) : py_scope.

(** [logger.info], [logger.warning], [logger.error] *)
Definition logger (lv : level) (msg : list frag) : M unit :=
  fun w => (Ok tt, World (files w) (log w ++ [(lv, msg)])).

Definition logger_info := logger INFO.
Definition logger_warning := logger WARNING.
Definition logger_error := logger ERROR.

(** The exit status of the interpreter after [main()]: 0 when it
    returns, 1 when an exception escapes. *)
Definition exit_status {A} (r : result A) : Z :=
  match r with
  | Ok _ => 0%Z
  | Raise _ => 1%Z
  end.

(** ** [main] *)

(** [parse_args()]: the command line, parsed. *)
Record Args := {
  arg_input : pystr;
  arg_sep : pystr;
  arg_sheet : option pystr;
  arg_max_hist : Z;
  arg_max_box : Z
}.

(** The path of a top-20 table:
    [f"reports/{clean_col_name}_top20_value_counts.csv"] *)
Definition top20_path (clean_col_name : pystr) : pystr :=
  lit "reports/" ++ clean_col_name ++ lit "_top20_value_counts.csv".

(** [clean_filename(c)] for a column label: [re.sub] accepts a [str]
    only. *)
Definition clean_filename_of (c : label) : result pystr :=
  match c with
  | LStr s => Ok (clean_filename s)
  | LObj _ =>
      Raise (Exn "TypeError" (lit "expected string or bytes-like object"))
  end.

(** Lines 62 to 74: the case where [read_any] returned a [dict].  [None]
    is the early [return] of [main]. *)
Definition select_sheet (sheet : option key) (df : loaded)
    : M (option table) :=
  match df with
  | Multiple d =>
      match sheet with
      | None =>
          match dict_keys d with
          | [] => raise (Exn "IndexError" (lit "list index out of range"))
          | first_sheet :: _ =>
              (logger_warning
                 [Lit (lit "Multiple sheets found. Using first sheet: ");
                  FKey first_sheet] >>
               match dict_get first_sheet d with
               | Some t => ret (Some t)
               | None => raise (Exn "KeyError" [])
               end)%py
          end
      | Some sheet =>
          if dict_contains sheet d then
            match dict_get sheet d with
            | Some t => ret (Some t)
            | None => raise (Exn "KeyError" [])
            end
          else
            (logger_error
               [Lit (lit "Sheet '"); FKey sheet;
                Lit (lit "' not found. Available sheets: ");
                FKeys (dict_keys d)] >>
             ret None)%py
      end
  | Single t => ret (Some t)
  end.

(** [cat[c].value_counts(dropna=False).head(20)] of line 114, for the
    data [cat[c]] under the label [c]: the counts of the column when the
    label is there once (a Series); with a repeated label [cat[c]] is a
    frame of columns of one name, which [value_counts] cannot group, and
    the statement raises. *)
Definition value_counts_head (data : list column) : result (list column) :=
  match data with
  | [] => Raise (Exn "KeyError" [])
  | [col] => Ok [col]
  | _ :: _ :: _ =>
      Raise (Exn "ValueError" (lit "Grouper not 1-dimensional"))
  end.

Section Main.

(** The interpreter's Unicode database and its limit on the digits of an
    integer literal, for [int()]. *)
Variable unicode_decimal : char -> option Z.
Variable max_str_digits : N.

(** The operating system's answer when a statement of the script
    writes a file: the exception it raises, if any. *)
Variable os_error : pystr -> content -> option exn.

(** pandas' answer to [num.describe()] on the numeric columns: the
    exception it raises, if any (it refuses complex data). *)
Variable describe_error : table -> option exn.

(** The collaborators of [src.data.load_data] and [src.eda.eda]. *)
Variable ensure_dir : pystr -> M unit.
Variable read_any : pystr -> pystr -> option key -> M loaded.
Variable data_overview : table -> M overview.
Variable data_dictionary : table -> M table.
Variable quality_flags : table -> table -> M flags.
Variable save_dictionary_csv : table -> pystr -> M unit.
Variable plot_missing_bar : table -> pystr -> M unit.
Variable plot_histograms : table -> pystr -> Z -> M unit.
Variable plot_boxplots : table -> pystr -> Z -> M unit.
Variable plot_correlation : table -> pystr -> M unit.

(** A write of the script itself: [to_csv(path)], or [open(path, "w")]
    and [json.dump]. *)
Definition write_file (path : pystr) (c : content) : M unit :=
  fun w =>
    match os_error path c with
    | Some e => (Raise e, w)
    | None => (Ok tt, World (<[path := c]> (files w)) (log w))
    end.

(** Lines 51 to 56. *)
Definition parse_sheet (a : option pystr) : option key :=
  match a with
  | None => None
  | Some s =>
      match py_int unicode_decimal max_str_digits s with
      | Some z => Some (KInt z)
      | None => Some (KStr s)
      end
  end.

(** Lines 106 to 108. *)
Definition export_numeric_summary (df_cols_norm : table) : M unit :=
  let num := select_number df_cols_norm in
  if 0 <? shape1 num
  then
    match describe_error num with
    | Some e => raise e
    | None =>
        write_file (lit "reports/numeric_summary.csv") (CsvDescribe num)
    end
  else ret tt.

(** Lines 113 to 121: the loop over [cat.columns]; the result is
    [freq_out]. *)
Fixpoint export_loop (cat : table) (cols : list label)
    (freq_out : list label) : M (list label) :=
  match cols with
  | [] => ret freq_out
  | c :: rest =>
      (let* vc := lift (value_counts_head (getitem c cat)) in
       let* clean_col_name := lift (clean_filename_of c) in
       let* freq_out :=
         try_except
           (write_file (top20_path clean_col_name) (CsvValueCounts vc) >>
            ret (freq_out ++ [c]))
           (fun e =>
              logger_warning
                [Lit (lit "No se pudo guardar archivo para columna '");
                 FLabel c; Lit (lit "': "); FExn e] >>
              ret freq_out) in
       export_loop cat rest freq_out)%py
  end.

(** Lines 111 to 121. *)
Definition export_categorical (df_cols_norm : table) : M (list label) :=
  let cat := select_non_number df_cols_norm in
  export_loop cat (columns cat) [].

(** Lines 76 to 123: the run once [df] is one table. *)
Definition profile (args : Args) (df : table) : M unit :=
  (let* df_cols_norm := lift (normalized_copy df) in
   write_file (lit "data/interim/sample_head.csv")
     (CsvFrame df_cols_norm false) >>
   let* ov := data_overview df_cols_norm in
   logger_info
     [Lit (lit "Dimensiones: "); FInt (ov_rows ov);
      Lit (lit " filas " ++ [215] ++ lit " "); FInt (ov_cols ov);
      Lit (lit " columnas")] >>
   logger_info
     [Lit (lit "Primeras columnas: "); FLabels (take 5 (ov_columns ov))] >>
   let* dd := data_dictionary df_cols_norm in
   save_dictionary_csv dd (lit "reports/data_dictionary.csv") >>
   write_file (lit "data/interim/_data_dictionary_debug.csv")
     (CsvFrame dd false) >>
   let* fl := quality_flags df_cols_norm dd in
   write_file (lit "reports/quality_flags.json") (JsonFlags fl) >>
   logger_info [Lit (lit "Flags de calidad: "); FFlags fl] >>
   logger_info [Lit (lit "Generando gr" ++ [225] ++ lit "ficos...")] >>
   plot_missing_bar df_cols_norm (lit "reports/figures/missing_bar.png") >>
   plot_histograms df_cols_norm (lit "reports/figures")
     (arg_max_hist args) >>
   plot_boxplots df_cols_norm (lit "reports/figures")
     (arg_max_box args) >>
   plot_correlation df_cols_norm (lit "reports/figures/corr_matrix.png") >>
   export_numeric_summary df_cols_norm >>
   let* freq_out := export_categorical df_cols_norm in
   logger_info
     [Lit (lit "Listo. Revisa carpeta 'reports' y 'reports/figures'.")])%py.

(** Lines 45 to 59: the output directories, the sheet selector and the
    call of [read_any]. *)
Definition load_data (args : Args) : M (option key * loaded) :=
  (ensure_dir (lit "reports") >>
   ensure_dir (lit "reports/figures") >>
   ensure_dir (lit "data/interim") >>
   let sheet := parse_sheet (arg_sheet args) in
   logger_info [Lit (lit "Leyendo datos: "); FStr (arg_input args)] >>
   let* df := read_any (arg_input args) (arg_sep args) sheet in
   ret (sheet, df))%py.

Definition main (args : Args) : M unit :=
  (let* loaded := load_data args in
   let sheet := fst loaded in
   let df := snd loaded in
   let* selected := select_sheet sheet df in
   match selected with
   | None => ret tt
   | Some df => profile args df
   end)%py.

End Main.

(** ** The two halves of [profile]

    Lines 76 to 102 (the normalised copy, the overview, the dictionary,
    the flags and the plots) and lines 104 to 123 (the profiling
    tables), named apart so that statements can speak of the run at the
    point between them. *)

Section ProfileParts.

Variable os_error : pystr -> content -> option exn.
Variable describe_error : table -> option exn.
Variable data_overview : table -> M overview.
Variable data_dictionary : table -> M table.
Variable quality_flags : table -> table -> M flags.
Variable save_dictionary_csv : table -> pystr -> M unit.
Variable plot_missing_bar : table -> pystr -> M unit.
Variable plot_histograms : table -> pystr -> Z -> M unit.
Variable plot_boxplots : table -> pystr -> Z -> M unit.
Variable plot_correlation : table -> pystr -> M unit.

(** Lines 76 to 102; the result is [df_cols_norm]. *)
Definition report (args : Args) (df : table) : M table :=
  (let* df_cols_norm := lift (normalized_copy df) in
   write_file os_error (lit "data/interim/sample_head.csv")
     (CsvFrame df_cols_norm false) >>
   let* ov := data_overview df_cols_norm in
   logger_info
     [Lit (lit "Dimensiones: "); FInt (ov_rows ov);
      Lit (lit " filas " ++ [215] ++ lit " "); FInt (ov_cols ov);
      Lit (lit " columnas")] >>
   logger_info
     [Lit (lit "Primeras columnas: "); FLabels (take 5 (ov_columns ov))] >>
   let* dd := data_dictionary df_cols_norm in
   save_dictionary_csv dd (lit "reports/data_dictionary.csv") >>
   write_file os_error (lit "data/interim/_data_dictionary_debug.csv")
     (CsvFrame dd false) >>
   let* fl := quality_flags df_cols_norm dd in
   write_file os_error (lit "reports/quality_flags.json") (JsonFlags fl) >>
   logger_info [Lit (lit "Flags de calidad: "); FFlags fl] >>
   logger_info [Lit (lit "Generando gr" ++ [225] ++ lit "ficos...")] >>
   plot_missing_bar df_cols_norm (lit "reports/figures/missing_bar.png") >>
   plot_histograms df_cols_norm (lit "reports/figures")
     (arg_max_hist args) >>
   plot_boxplots df_cols_norm (lit "reports/figures")
     (arg_max_box args) >>
   plot_correlation df_cols_norm (lit "reports/figures/corr_matrix.png") >>
   ret df_cols_norm)%py.

(** The record of line 123. *)
Definition listo : level * list frag :=
  (INFO,
   [Lit (lit "Listo. Revisa carpeta 'reports' y 'reports/figures'.")]).

(** Lines 104 to 123. *)
Definition export_tables (df_cols_norm : table) : M unit :=
  (export_numeric_summary os_error describe_error df_cols_norm >>
   let* freq_out := export_categorical os_error df_cols_norm in
   logger_info
     [Lit (lit "Listo. Revisa carpeta 'reports' y 'reports/figures'.")])%py.

End ProfileParts.

(** ** Vocabulary of the statements *)

Definition is_str (c : label) : bool :=
  match c with
  | LStr _ => true
  | LObj _ => false
  end.

(** The label [new] is the label [old] turned into text, trimmed of
    the white space at both ends, with every space that is left
    replaced by an underscore and every other character kept at its
    place. *)
Definition normalised_from (old new : label) : Prop :=
  exists (lead trimmed trail name : pystr),
    py_str old = lead ++ trimmed ++ trail
    /\ Forall (fun c => Str.isspace c = true) lead
    /\ Forall (fun c => Str.isspace c = true) trail
    /\ clean_ends Str.isspace trimmed
    /\ new = LStr name
    /\ length name = length trimmed
    /\ forall (i : nat) (ch : char),
         trimmed !! i = Some ch ->
         name !! i = Some (if ch =? 32 then underscore else ch).

(** One of the characters 0 to 9. *)
Definition is_ascii_digit (c : char) : bool := (48 <=? c) && (c <=? 57).

(** The number that a string of the digits 0 to 9 writes. *)
Definition decimal (ds : pystr) : Z :=
  fold_left (fun acc c => (acc * 10 + Z.of_N (c - 48))%Z) ds 0%Z.

(** The error record of line 73. *)
Definition sheet_not_found (sheet : key) (d : list (key * table))
    : level * list frag :=
  (ERROR,
   [Lit (lit "Sheet '"); FKey sheet;
    Lit (lit "' not found. Available sheets: "); FKeys (dict_keys d)]).

(** The warning record of line 66. *)
Definition using_first_sheet (first_sheet : key) : level * list frag :=
  (WARNING,
   [Lit (lit "Multiple sheets found. Using first sheet: ");
    FKey first_sheet]).

(** The warning record of line 121. *)
Definition could_not_save (c : label) (e : exn) : level * list frag :=
  (WARNING,
   [Lit (lit "No se pudo guardar archivo para columna '");
    FLabel c; Lit (lit "': "); FExn e]).

(** The path and the content of the top-20 table of the column [c]. *)
Definition top20_file (cat : table) (c : label) : pystr * content :=
  (top20_path (clean_filename (py_str c)), CsvValueCounts (getitem c cat)).

Section ExportVocabulary.

Variable os_error : pystr -> content -> option exn.
Variable cat : table.

(** The answer of the operating system to the write for [c]. *)
Definition refusal (c : label) : option exn :=
  os_error (top20_file cat c).1 (top20_file cat c).2.

Definition written (c : label) : bool :=
  match refusal c with
  | None => true
  | Some _ => false
  end.

(** The columns whose write succeeds, and the warnings for the
    others, in the order of the columns. *)
Definition written_columns (cols : list label) : list label :=
  List.filter written cols.

Fixpoint refusal_warnings (cols : list label) : list (level * list frag) :=
  match cols with
  | [] => []
  | c :: rest =>
      match refusal c with
      | Some e => could_not_save c e :: refusal_warnings rest
      | None => refusal_warnings rest
      end
  end.

(** The files once every successful write of the loop is done. *)
Fixpoint files_after (cols : list label) (fs : gmap pystr content)
    : gmap pystr content :=
  match cols with
  | [] => fs
  | c :: rest =>
      match refusal c with
      | Some _ => files_after rest fs
      | None =>
          files_after rest
            (<[(top20_file cat c).1 := (top20_file cat c).2]> fs)
      end
  end.

End ExportVocabulary.

(** The run ended by an exception of the class [cls]. *)
Definition aborts_with {A} (cls : string) (r : result A * world) : Prop :=
  exists msg, r.1 = Raise (Exn cls msg).

(** ** A small workbook, and collaborators that always succeed *)

Module Demo.

Definition ventas : table :=
  [(LStr (lit " Precio de venta"), Column Int64 [IntCell 10; IntCell 12]);
   (LStr (lit "a/b"), Column Object [StrCell (lit "x"); NA]);
   (LStr (lit "a_b"), Column Object [StrCell (lit "u"); StrCell (lit "v")]);
   (LObj (lit "3"), Column Bool [BoolCell true; BoolCell false])].

Definition notas : table :=
  [(LStr (lit "nota"), Column Object [StrCell (lit "ok")])].

Definition workbook : list (key * table) :=
  [(KStr (lit "Sheet1"), ventas); (KStr (lit "2"), notas)].

Definition no_unicode_digit : char -> option Z := fun _ => None.

(** The default limit of Python 3.11 and later. *)
Definition max_str_digits : N := 4300.

(** A [describe] that refuses complex data and nothing else. *)
Definition describe_error (num : table) : option exn :=
  if existsb
       (fun lc =>
          match col_dtype lc.2, col_cells lc.2 with
          | Complex128, _ :: _ => true
          | _, _ => false
          end) num
  then Some (Exn "TypeError" (lit "complex data"))
  else None.

Definition os_ok : pystr -> content -> option exn := fun _ _ => None.

(** An operating system that refuses one path. *)
Definition os_refusing (bad : pystr) : pystr -> content -> option exn :=
  fun path _ =>
    if decide (path = bad)
    then Some (Exn "OSError" (lit "Invalid argument"))
    else None.

Definition render (who : string) (t : table) (path : pystr) : M unit :=
  fun w => (Ok tt, World (<[path := Rendered who t]> (files w)) (log w)).

Definition ensure_dir (path : pystr) : M unit := ret tt.

Definition read_any (path sep : pystr) (sheet : option key) : M loaded :=
  ret (Multiple workbook).

Definition data_overview (t : table) : M overview :=
  ret (Overview 2 (Z.of_nat (length t)) (columns t)).

Definition data_dictionary (t : table) : M table :=
  ret (List.map (fun lc => (fst lc, Column Object [])) t).

Definition quality_flags (t dd : table) : M flags :=
  ret [(lit "duplicate_rows", FlagCount 0)].

Definition save_dictionary_csv (dd : table) (path : pystr) : M unit :=
  render "save_dictionary_csv" dd path.

Definition plot_missing_bar (t : table) (path : pystr) : M unit :=
  render "plot_missing_bar" t path.

Definition plot_histograms (t : table) (dir : pystr) (max_cols : Z)
    : M unit :=
  render "plot_histograms" t (dir ++ lit "/hist.png").

Definition plot_boxplots (t : table) (dir : pystr) (max_cols : Z)
    : M unit :=
  render "plot_boxplots" t (dir ++ lit "/box.png").

Definition plot_correlation (t : table) (path : pystr) : M unit :=
  render "plot_correlation" t path.

Definition main (os_error : pystr -> content -> option exn)
    (args : Args) : M unit :=
  main no_unicode_digit max_str_digits os_error describe_error ensure_dir
    read_any data_overview data_dictionary quality_flags
    save_dictionary_csv plot_missing_bar plot_histograms plot_boxplots
    plot_correlation args.

Definition load_data (args : Args) : M (option key * loaded) :=
  load_data no_unicode_digit max_str_digits ensure_dir read_any args.

Definition args (sheet : option pystr) : Args :=
  {| arg_input := lit "ventas.xlsx"; arg_sep := lit "auto";
     arg_sheet := sheet; arg_max_hist := 12; arg_max_box := 8 |}.

Definition profile (os_error : pystr -> content -> option exn)
    (args : Args) (df : table) : M unit :=
  profile os_error describe_error data_overview data_dictionary
    quality_flags save_dictionary_csv plot_missing_bar plot_histograms
    plot_boxplots plot_correlation args df.

Definition empty_world : world := World ∅ [].

(** The world when [read_any] has returned. *)
Definition loaded_world : world :=
  World ∅
    [(INFO, [Lit (lit "Leyendo datos: "); FStr (lit "ventas.xlsx")])].

End Demo.

(** The exception of line 65 on an empty list of keys. *)
Definition no_first_sheet : exn :=
  Exn "IndexError" (lit "list index out of range").

(** ** A workbook without sheets, and the first half of a run *)

Module Edge.

Definition read_any (path sep : pystr) (sheet : option key) : M loaded :=
  ret (Multiple []).

Definition main (args : Args) : M unit :=
  main Demo.no_unicode_digit Demo.max_str_digits Demo.os_ok
    Demo.describe_error Demo.ensure_dir read_any
    Demo.data_overview Demo.data_dictionary Demo.quality_flags
    Demo.save_dictionary_csv Demo.plot_missing_bar Demo.plot_histograms
    Demo.plot_boxplots Demo.plot_correlation args.

Definition report (os_error : pystr -> content -> option exn)
    (args : Args) (df : table) : M table :=
  report os_error Demo.data_overview Demo.data_dictionary
    Demo.quality_flags Demo.save_dictionary_csv Demo.plot_missing_bar
    Demo.plot_histograms Demo.plot_boxplots Demo.plot_correlation args df.

(** An operating system that refuses [numeric_summary.csv]. *)
Definition os_no_summary : pystr -> content -> option exn :=
  Demo.os_refusing (lit "reports/numeric_summary.csv").



(** A table with two text columns of distinct sanitised names and one
    numeric column. *)
Definition clientes : table :=
  [(LStr (lit "nombre"), Column Object [StrCell (lit "Ana"); NA]);
   (LStr (lit "edad"), Column Int64 [IntCell 31; IntCell 40]);
   (LStr (lit "ciudad/pais"),
    Column Object [StrCell (lit "Cali"); StrCell (lit "Lima")])].

(** A table whose two text columns get one normalised name. *)
Definition repetida : table :=
  [(LStr (lit "unit price"), Column Object [StrCell (lit "a")]);
   (LStr (lit "unit_price"), Column Object [StrCell (lit "b")])].

(** A table with a complex column. *)
Definition compleja : table :=
  [(LStr (lit "z"), Column Complex128 [IntCell 1])].

End Edge.

(** * Properties *)

(** ** Strings *)

Section StripFacts.

Variable p : char -> bool.

Lemma lstrip_suffix s : exists a, s = a ++ Str.lstrip p s.
Proof.
  induction s as [|c r [a IH]]; simpl.
  - by exists [].
  - destruct (p c).
    + exists (c :: a). simpl. by f_equal.
    + by exists [].
Qed.

Lemma rstrip_prefix s : exists b, s = Str.rstrip p s ++ b.
Proof.
  unfold Str.rstrip.
  destruct (lstrip_suffix (rev s)) as [a Ha].
  exists (rev a).
  rewrite <- rev_app_distr, <- Ha. by rewrite rev_involutive.
Qed.

Lemma strip_infix s : exists a b, s = a ++ Str.strip p s ++ b.
Proof.
  unfold Str.strip.
  destruct (lstrip_suffix s) as [a Ha].
  destruct (rstrip_prefix (Str.lstrip p s)) as [b Hb].
  exists a, b. by rewrite <- Hb.
Qed.

Lemma lstrip_head s c : head (Str.lstrip p s) = Some c -> p c = false.
Proof.
  induction s as [|d r IH]; simpl; [done|].
  destruct (p d) eqn:E; [done|].
  simpl. intros [= <-]. done.
Qed.

Lemma lstrip_last s c : last (Str.lstrip p s) = Some c -> last s = Some c.
Proof.
  induction s as [|d r IH]; simpl; [done|].
  destruct (p d); [|done].
  intros H. specialize (IH H).
  destruct r; [done|]. by rewrite last_cons, IH.
Qed.

Lemma lstrip_id s :
  (forall c, head s = Some c -> p c = false) -> Str.lstrip p s = s.
Proof.
  destruct s as [|d r]; simpl; [done|].
  intros H. by rewrite (H d eq_refl).
Qed.

Lemma head_rev (s : pystr) : head (rev s) = last s.
Proof.
  induction s as [|d r IH] using rev_ind; [done|].
  rewrite rev_app_distr. simpl. by rewrite last_snoc.
Qed.

Lemma last_rev (s : pystr) : last (rev s) = head s.
Proof. rewrite <- (rev_involutive s) at 2. by rewrite head_rev. Qed.

Lemma strip_clean_ends s : clean_ends p (Str.strip p s).
Proof.
  unfold Str.strip, Str.rstrip. split; intros c.
  - rewrite head_rev. intros H%lstrip_last.
    rewrite last_rev in H. by apply lstrip_head in H.
  - rewrite last_rev. apply lstrip_head.
Qed.

Lemma strip_id s : clean_ends p s -> Str.strip p s = s.
Proof.
  intros [Hh Hl]. unfold Str.strip, Str.rstrip.
  rewrite (lstrip_id s Hh).
  rewrite lstrip_id; [apply rev_involutive|].
  intros c. rewrite head_rev. apply Hl.
Qed.

End StripFacts.

(** *** Column names *)

Lemma replace_space_fixed s :
  Str.replace 32 underscore (Str.replace 32 underscore s)
  = Str.replace 32 underscore s.
Proof.
  unfold Str.replace. rewrite List.map_map. apply List.map_ext.
  intros c. destruct (c =? 32) eqn:E; [done|]. by rewrite E.
Qed.

Lemma last_map (f : char -> char) (s : pystr) :
  last (List.map f s) = f <$> last s.
Proof.
  induction s as [|d r IH]; [done|].
  destruct r as [|e r']; [done|].
  change (last (f d :: List.map f (e :: r')) = f <$> last (d :: e :: r')).
  by rewrite !last_cons_cons.
Qed.

Lemma replace_space_clean_ends s :
  clean_ends Str.isspace s ->
  clean_ends Str.isspace (Str.replace 32 underscore s).
Proof.
  unfold Str.replace. intros [Hh Hl]. split; intros c.
  - destruct s as [|d r]; simpl; [done|]. intros [= <-].
    destruct (d =? 32); [done|]. by apply Hh.
  - rewrite last_map.
    destruct (last s) as [d|] eqn:E; simpl; [|done]. intros [= <-].
    destruct (d =? 32); [done|]. by apply Hl.
Qed.

(** C8. The normalisation of a column name, [str(c).strip()] with every
    space replaced by an underscore, is idempotent: normalising a
    normalised name returns it unchanged. *)
Theorem normalize_name_idempotent (c : label) :
  normalize_name (LStr (normalize_name c)) = normalize_name c.
Proof.
  unfold normalize_name at 1. simpl.
  unfold normalize_name.
  rewrite strip_id.
  - apply replace_space_fixed.
  - apply replace_space_clean_ends, strip_clean_ends.
Qed.

Example normalize_name_ex :
  normalize_name (LStr (lit "  Precio de venta ")) = lit "Precio_de_venta".
Proof. reflexivity. Qed.

(** *** File names *)

Example clean_filename_ex1 :
  clean_filename (lit "a/b") = lit "a_b".
Proof. reflexivity. Qed.

Example clean_filename_ex2 :
  clean_filename (lit "__total::ventas?__") = lit "total_ventas".
Proof. reflexivity. Qed.

Lemma has_run2_lookup p s i a b :
  has_run2 p s = false ->
  s !! i = Some a -> s !! S i = Some b -> p a && p b = false.
Proof.
  revert i. induction s as [|x r IH]; intros i H Ha Hb; [done|].
  destruct r as [|y r']; [done|].
  simpl in H. apply orb_false_iff in H as [H1 H2].
  destruct i as [|i]; simpl in *.
  - by simplify_eq.
  - by apply (IH i).
Qed.

Lemma sub_class_length cls c s :
  length (Re.sub_class cls [c] s) = length s.
Proof.
  induction s as [|d r IH]; simpl; [done|].
  destruct (cls d); simpl; by rewrite IH.
Qed.

Lemma sub_class_Forall (P : char -> Prop) cls c s :
  P c -> (forall d, cls d = false -> P d) ->
  Forall P (Re.sub_class cls [c] s).
Proof.
  intros Hc Hd. induction s as [|d r IH]; simpl; [done|].
  destruct (cls d) eqn:E; simpl; constructor; auto.
Qed.

Lemma sub_plus_from_length b cls c s :
  (length (Re.sub_plus_from b cls [c] s) <= length s)%nat.
Proof.
  revert b. induction s as [|d r IH]; intros b; simpl; [done|].
  pose proof (IH true). pose proof (IH false).
  destruct (cls d), b; simpl; lia.
Qed.

Lemma sub_plus_from_Forall (P : char -> Prop) b cls c s :
  P c -> Forall P s -> Forall P (Re.sub_plus_from b cls [c] s).
Proof.
  intros Hc Hs. revert b.
  induction Hs as [|d r Hd Hr IH]; intros b; simpl; [done|].
  destruct (cls d), b; simpl; auto.
Qed.

Lemma sub_plus_inside_head cls c s d :
  head (Re.sub_plus_from true cls [c] s) = Some d -> cls d = false.
Proof.
  induction s as [|x r IH]; simpl; [done|].
  destruct (cls x) eqn:E; [done|]. simpl. by intros [= <-].
Qed.

Lemma sub_plus_from_no_run b cls c s :
  has_run2 cls (Re.sub_plus_from b cls [c] s) = false.
Proof.
  revert b. induction s as [|x r IH]; intros b; [done|].
  simpl. destruct (cls x) eqn:E.
  - destruct b; [apply IH|].
    simpl. specialize (IH true).
    pose proof (sub_plus_inside_head cls c r) as Hh.
    destruct (Re.sub_plus_from true cls [c] r) as [|y t]; [done|].
    rewrite IH, (Hh y eq_refl). by rewrite andb_false_r.
  - specialize (IH false). simpl.
    destruct (Re.sub_plus_from false cls [c] r) as [|y t]; [done|].
    by rewrite IH, E.
Qed.

Lemma clean_filename_limited filename :
  clean_filename filename
  = Str.strip is_underscore
      (Re.sub_plus is_underscore [underscore] (limited filename)).
Proof. reflexivity. Qed.

Lemma limited_length filename : (length (limited filename) <= 100)%nat.
Proof.
  unfold limited, Str.len, Str.slice_to.
  destruct (100 <? _) eqn:E.
  - rewrite length_app, length_take.
    change (length (lit "...")) with 3%nat. lia.
  - apply N.ltb_ge in E. lia.
Qed.

Lemma limited_allowed filename :
  Forall (fun c => forbidden c = false) (limited filename).
Proof.
  assert (Forall (fun c => forbidden c = false)
            (Re.sub_class forbidden [underscore] filename)) as HR
    by (by apply sub_class_Forall).
  unfold limited, Str.slice_to. destruct (100 <? _); [|done].
  apply Forall_app. split; [by apply Forall_take|].
  by repeat constructor.
Qed.

(** C4. For every input, the result of [clean_filename] holds none of the
    forbidden characters, is at most 100 characters long, and has no two
    adjacent underscores. *)
Theorem clean_filename_safe (filename : pystr) :
  (forall c, c ∈ clean_filename filename -> forbidden c = false)
  /\ Str.len (clean_filename filename) <= 100
  /\ (forall i, ~ (clean_filename filename !! i = Some underscore
                   /\ clean_filename filename !! S i = Some underscore)).
Proof.
  rewrite clean_filename_limited.
  set (mid := Re.sub_plus is_underscore [underscore] (limited filename)).
  destruct (strip_infix is_underscore mid) as (a & b & Hmid).
  set (out := Str.strip is_underscore mid) in *.
  assert (Forall (fun c => forbidden c = false) mid) as Hall
    by (by apply sub_plus_from_Forall; [|apply limited_allowed]).
  assert (length mid <= 100)%nat as Hlen.
  { pose proof (sub_plus_from_length false is_underscore underscore
                  (limited filename)).
    pose proof (limited_length filename). unfold mid, Re.sub_plus. lia. }
  assert (has_run2 is_underscore mid = false) as Hrun
    by apply sub_plus_from_no_run.
  split; [|split].
  - intros c Hc. rewrite Forall_forall in Hall. apply Hall.
    rewrite Hmid, !elem_of_app. auto.
  - rewrite Hmid, !length_app in Hlen. unfold Str.len. lia.
  - intros i [H1 H2].
    assert (mid !! (length a + i)%nat = Some underscore) as G1.
    { rewrite Hmid, lookup_app_r by lia.
      replace (length a + i - length a)%nat with i by lia.
      by apply lookup_app_l_Some. }
    assert (mid !! S (length a + i) = Some underscore) as G2.
    { rewrite Hmid, lookup_app_r by lia.
      replace (S (length a + i) - length a)%nat with (S i) by lia.
      by apply lookup_app_l_Some. }
    by pose proof (has_run2_lookup _ _ _ _ _ Hrun G1 G2).
Qed.

Lemma clean_filename_safe_witness :
  (forall c, c ∈ clean_filename (lit "a//b:c") -> forbidden c = false)
  /\ Str.len (clean_filename (lit "a//b:c")) <= 100
  /\ (forall i, ~ (clean_filename (lit "a//b:c") !! i = Some underscore
                   /\ clean_filename (lit "a//b:c") !! S i
                      = Some underscore)).
Proof. exact (clean_filename_safe (lit "a//b:c")). Defined.

(** On an input of at most 100 characters no step of either order
    reaches the length limit. *)
Lemma clean_filename_short filename :
  Str.len filename <= 100 ->
  clean_filename filename = clean_filename_spec filename.
Proof.
  intros Hlen. unfold clean_filename, clean_filename_spec.
  set (R := Re.sub_class forbidden [underscore] filename).
  assert (length R = length filename) as HR by apply sub_class_length.
  assert ((100 <? Str.len R) = false) as ->.
  { apply N.ltb_ge. unfold Str.len in *. lia. }
  set (mid := Re.sub_plus is_underscore [underscore] R).
  assert ((100 <? Str.len (Str.strip is_underscore mid)) = false) as ->;
    [|done].
  apply N.ltb_ge.
  destruct (strip_infix is_underscore mid) as (a & b & Hmid).
  pose proof (sub_plus_from_length false is_underscore underscore R) as Hm.
  fold (Re.sub_plus is_underscore [underscore] R) in Hm. fold mid in Hm.
  rewrite Hmid, !length_app in Hm. unfold Str.len in *. lia.
Qed.

(** C1, as amended. [clean_filename] replaces each forbidden character
    by an underscore; if that string is longer than 100 characters it
    keeps the first 97 and appends three dots; then it collapses every
    run of underscores to one and trims the underscores at both ends.
    On an input of at most 100 characters this is the order the claim
    gives (replace, collapse, trim, then limit). *)
Theorem clean_filename_algorithm (filename : pystr) :
  Str.len (replaced filename) = Str.len filename
  /\ (Str.len filename <= 100 ->
      clean_filename filename = trim (collapse (replaced filename))
      /\ clean_filename filename = clean_filename_spec filename)
  /\ (100 < Str.len filename ->
      clean_filename filename
      = trim (collapse (Str.slice_to 97 (replaced filename) ++ lit "..."))).
Proof.
  assert (Str.len (replaced filename) = Str.len filename) as Hlen
    by (unfold Str.len; f_equal; apply sub_class_length).
  split; [done|]. split.
  - intros H. split; [|by apply clean_filename_short].
    unfold clean_filename. fold (replaced filename). rewrite Hlen.
    by apply N.ltb_ge in H as ->.
  - intros H. unfold clean_filename. fold (replaced filename). rewrite Hlen.
    by apply N.ltb_lt in H as ->.
Qed.

Lemma clean_filename_algorithm_witness :
  clean_filename (lit "a::b") = clean_filename_spec (lit "a::b")
  /\ clean_filename (replicate 101 underscore) = lit "...".
Proof.
  split.
  - apply (clean_filename_algorithm (lit "a::b")). vm_compute. discriminate.
  - rewrite (proj2 (proj2 (clean_filename_algorithm
                              (replicate 101 underscore))));
      [vm_compute; reflexivity | vm_compute; reflexivity].
Defined.

(** C1, as stated, fails: on 101 underscores the source limits the length
    before it collapses and trims, and returns three dots, where the
    order of the claim returns the empty string. *)
Lemma clean_filename_order_counterexample :
  clean_filename (replicate 101 underscore) = lit "..."
  /\ clean_filename_spec (replicate 101 underscore) = []
  /\ clean_filename (replicate 101 underscore)
     <> clean_filename_spec (replicate 101 underscore).
Proof. vm_compute. repeat split; discriminate. Qed.

(** ** [int()] on a string of digits *)

Ltac split_comparisons :=
  repeat match goal with
    | |- context [?a <=? ?b] => destruct (N.leb_spec a b); try lia
    | |- context [?a <? ?b] => destruct (N.ltb_spec a b); try lia
    | |- context [?a =? ?b] => destruct (N.eqb_spec a b); try lia
    end.

Lemma digit_bounds c : is_ascii_digit c = true -> 48 <= c <= 57.
Proof.
  unfold is_ascii_digit. intros [H1 H2]%andb_true_iff.
  apply N.leb_le in H1. apply N.leb_le in H2. lia.
Qed.

Lemma digit_not_space c : is_ascii_digit c = true -> Str.isspace c = false.
Proof.
  intros H%digit_bounds. unfold Str.isspace. by split_comparisons.
Qed.

Lemma digit_value_ascii ud c :
  is_ascii_digit c = true -> digit_value ud c = Some (Z.of_N (c - 48)).
Proof.
  intros H. unfold digit_value. rewrite (digit_not_space c H).
  apply digit_bounds in H. by split_comparisons.
Qed.

Lemma digits_value_ascii ud ds acc b :
  Forall (fun c => is_ascii_digit c = true) ds ->
  digits_value ud acc b ds
  = match ds with
    | [] => if b then Some acc else None
    | _ =>
        Some (fold_left (fun acc c => (acc * 10 + Z.of_N (c - 48))%Z) ds acc)
    end.
Proof.
  intros H. revert acc b.
  induction H as [|c r Hc Hr IH]; intros acc b; [done|].
  simpl. rewrite (digit_value_ascii ud c Hc).
  assert ((c =? underscore) = false) as ->.
  { apply digit_bounds in Hc. apply N.eqb_neq. unfold underscore. lia. }
  rewrite IH. by destruct r.
Qed.

Lemma int_space_isspace c : int_space c = true -> Str.isspace c = true.
Proof.
  unfold int_space, Str.isspace.
  destruct (N.ltb_spec c 128) as [Hlt|Hge]; [|done].
  intros Hs. apply orb_true_iff in Hs as [Hs|Hs].
  - apply andb_true_iff in Hs as [H1 H2].
    apply N.leb_le in H1. apply N.leb_le in H2.
    by split_comparisons.
  - apply N.eqb_eq in Hs as ->. reflexivity.
Qed.

Lemma not_space_not_int_space c :
  Str.isspace c = false -> int_space c = false.
Proof.
  intros H. destruct (int_space c) eqn:E; [|done].
  apply int_space_isspace in E. congruence.
Qed.

Lemma digits_clean_ends ds :
  Forall (fun c => is_ascii_digit c = true) ds ->
  clean_ends Str.isspace ds.
Proof.
  intros H. rewrite Forall_forall in H.
  split; intros c Hc; apply digit_not_space, H.
  - destruct ds; [done|]. injection Hc as ->. apply list_elem_of_here.
  - by apply last_Some_elem_of.
Qed.

Lemma clean_ends_int_space s :
  clean_ends Str.isspace s -> clean_ends int_space s.
Proof.
  intros [Hh Hl].
  split; intros c Hc; apply not_space_not_int_space; auto.
Qed.

Lemma digit_count_digits ds :
  Forall (fun c => is_ascii_digit c = true) ds ->
  digit_count ds = N.of_nat (length ds).
Proof.
  intros H. unfold digit_count. f_equal.
  induction H as [|c r Hc Hr IH]; simpl; [done|].
  assert ((c =? underscore) = false) as ->.
  { apply digit_bounds in Hc. apply N.eqb_neq. unfold underscore. lia. }
  simpl. by rewrite IH.
Qed.

Lemma digits_int_ascii ud mx ds :
  ds <> [] -> Forall (fun c => is_ascii_digit c = true) ds ->
  digits_int ud mx ds
  = if over_limit mx (N.of_nat (length ds)) then None
    else Some (decimal ds).
Proof.
  intros Hne H. unfold digits_int.
  rewrite digits_value_ascii, digit_count_digits by done.
  by destruct ds.
Qed.

Lemma py_int_digits ud mx ds :
  ds <> [] -> Forall (fun c => is_ascii_digit c = true) ds ->
  py_int ud mx ds
  = if over_limit mx (N.of_nat (length ds)) then None
    else Some (decimal ds).
Proof.
  intros Hne H. unfold py_int.
  rewrite (strip_id _ _ (clean_ends_int_space _ (digits_clean_ends ds H))).
  rewrite <- (digits_int_ascii ud mx ds Hne H).
  destruct ds as [|c r]; [done|].
  pose proof (Forall_inv H) as Hc%digit_bounds.
  assert ((c =? 43) = false) as -> by (apply N.eqb_neq; lia).
  by assert ((c =? 45) = false) as -> by (apply N.eqb_neq; lia).
Qed.

Example py_int_ex1 :
  py_int Demo.no_unicode_digit Demo.max_str_digits (lit " 12 ")
  = Some 12%Z.
Proof. reflexivity. Qed.

Example py_int_ex2 :
  py_int Demo.no_unicode_digit Demo.max_str_digits (lit "-1_000")
  = Some (-1000)%Z.
Proof. reflexivity. Qed.

Example py_int_ex3 :
  py_int Demo.no_unicode_digit Demo.max_str_digits (lit "Sheet1") = None.
Proof. reflexivity. Qed.

(** [int()] does not skip the separators 28 to 31, which [str.strip()]
    removes. *)
Example py_int_ex4 :
  py_int Demo.no_unicode_digit Demo.max_str_digits (28 :: lit "12") = None
  /\ Str.strip Str.isspace (28 :: lit "12") = lit "12".
Proof. split; reflexivity. Qed.

(** ** The sheet selection *)

Lemma dict_get_elem k d t : dict_get k d = Some t -> k ∈ dict_keys d.
Proof.
  induction d as [|[k' t'] r IH]; simpl; [done|].
  case_decide as E.
  - intros _. subst. apply list_elem_of_here.
  - intros H. apply list_elem_of_further. by apply IH.
Qed.

Lemma select_sheet_missing k d w :
  k ∉ dict_keys d ->
  select_sheet (Some k) (Multiple d) w
  = (Ok None, World (files w) (log w ++ [sheet_not_found k d])).
Proof.
  intros H. simpl. unfold dict_contains. by rewrite bool_decide_false.
Qed.


Section MainFacts.

Variable unicode_decimal : char -> option Z.
Variable max_str_digits : N.
Variable os_error : pystr -> content -> option exn.
Variable describe_error : table -> option exn.
Variable ensure_dir : pystr -> M unit.
Variable read_any : pystr -> pystr -> option key -> M loaded.
Variable data_overview : table -> M overview.
Variable data_dictionary : table -> M table.
Variable quality_flags : table -> table -> M flags.
Variable save_dictionary_csv : table -> pystr -> M unit.
Variable plot_missing_bar : table -> pystr -> M unit.
Variable plot_histograms : table -> pystr -> Z -> M unit.
Variable plot_boxplots : table -> pystr -> Z -> M unit.
Variable plot_correlation : table -> pystr -> M unit.

#[local] Abbreviation the_load :=
  (load_data unicode_decimal max_str_digits ensure_dir read_any).
#[local] Abbreviation the_profile :=
  (profile os_error describe_error data_overview data_dictionary
     quality_flags save_dictionary_csv plot_missing_bar plot_histograms
     plot_boxplots plot_correlation).
#[local] Abbreviation the_main :=
  (main unicode_decimal max_str_digits os_error describe_error ensure_dir
     read_any data_overview data_dictionary quality_flags
     save_dictionary_csv plot_missing_bar plot_histograms plot_boxplots
     plot_correlation).


Lemma main_after_load args w sheet df w1 :
  the_load args w = (Ok (sheet, df), w1) ->
  the_main args w
  = match select_sheet sheet df w1 with
    | (Ok (Some t), w2) => the_profile args t w2
    | (Ok None, w2) => (Ok tt, w2)
    | (Raise e, w2) => (Raise e, w2)
    end.
Proof.
  intros H. unfold main, bind at 1.
  rewrite H. simpl. unfold bind at 1.
  destruct (select_sheet sheet df w1) as [[[t|]|e] w2]; done.
Qed.

Lemma main_sheet_missing args w k d w1 :
  the_load args w = (Ok (Some k, Multiple d), w1) ->
  k ∉ dict_keys d ->
  the_main args w
  = (Ok tt, World (files w1) (log w1 ++ [sheet_not_found k d])).
Proof.
  intros H Hk. rewrite (main_after_load _ _ _ _ _ H).
  by rewrite select_sheet_missing.
Qed.

(** C2, as amended. When the loader returns a mapping and the sheet
    selector is none of its keys, [main] logs one record of level
    error that reports the selector and the whole list of keys, and
    returns: no exception is raised, the exit status is 0, and no file
    is written after the loader returned. *)
Theorem missing_sheet_logged args w k d w1 :
  the_load args w = (Ok (Some k, Multiple d), w1) ->
  k ∉ dict_keys d ->
  the_main args w
  = (Ok tt, World (files w1) (log w1 ++ [sheet_not_found k d]))
  /\ exit_status (the_main args w).1 = 0%Z
  /\ files (the_main args w).2 = files w1.
Proof.
  intros H Hk. by rewrite (main_sheet_missing _ _ _ _ _ H Hk).
Qed.

(** C5. When the loader returns a mapping and no selector is given,
    the first entry in insertion order is selected and a record of
    level warning names its key; [main] goes on with that table. *)
Theorem first_sheet_selected args w k t rest w1 :
  select_sheet None (Multiple ((k, t) :: rest)) w1
  = (Ok (Some t), World (files w1) (log w1 ++ [using_first_sheet k]))
  /\ (the_load args w = (Ok (None, Multiple ((k, t) :: rest)), w1) ->
      the_main args w
      = the_profile args t
          (World (files w1) (log w1 ++ [using_first_sheet k]))).
Proof.
  assert (select_sheet None (Multiple ((k, t) :: rest)) w1
          = (Ok (Some t),
             World (files w1) (log w1 ++ [using_first_sheet k]))) as E.
  { simpl. unfold bind, logger_warning, logger. simpl.
    by rewrite decide_True. }
  split; [done|].
  intros H. by rewrite (main_after_load _ _ _ _ _ H), E.
Qed.


End MainFacts.

Lemma missing_sheet_logged_witness :
  Demo.main Demo.os_ok (Demo.args (Some (lit "Sheet3"))) Demo.empty_world
  = (Ok tt,
     World ∅
       (log Demo.loaded_world
        ++ [sheet_not_found (KStr (lit "Sheet3")) Demo.workbook]))
  /\ exit_status
       (Demo.main Demo.os_ok (Demo.args (Some (lit "Sheet3")))
          Demo.empty_world).1 = 0%Z
  /\ files
       (Demo.main Demo.os_ok (Demo.args (Some (lit "Sheet3")))
          Demo.empty_world).2 = ∅.
Proof.
  apply (missing_sheet_logged Demo.no_unicode_digit Demo.max_str_digits
           Demo.os_ok Demo.describe_error
           Demo.ensure_dir Demo.read_any Demo.data_overview
           Demo.data_dictionary Demo.quality_flags Demo.save_dictionary_csv
           Demo.plot_missing_bar Demo.plot_histograms Demo.plot_boxplots
           Demo.plot_correlation
           (Demo.args (Some (lit "Sheet3"))) Demo.empty_world
           (KStr (lit "Sheet3")) Demo.workbook Demo.loaded_world).
  - reflexivity.
  - apply (bool_decide_unpack _). vm_compute. reflexivity.
Defined.

(** C2, as stated, fails: with the sheets Sheet1 and 2 and the selector
    Sheet3, no exception of any class ends the run and the exit status
    is 0. *)
Lemma missing_sheet_counterexample :
  Demo.load_data (Demo.args (Some (lit "Sheet3"))) Demo.empty_world
  = (Ok (Some (KStr (lit "Sheet3")), Multiple Demo.workbook),
     Demo.loaded_world)
  /\ (KStr (lit "Sheet3") ∉ dict_keys Demo.workbook)
  /\ (~ aborts_with "SheetNotFoundError"
          (Demo.main Demo.os_ok (Demo.args (Some (lit "Sheet3")))
             Demo.empty_world))
  /\ exit_status
       (Demo.main Demo.os_ok (Demo.args (Some (lit "Sheet3")))
          Demo.empty_world).1 = 0%Z.
Proof.
  split; [reflexivity|]. split.
  { apply (bool_decide_unpack _). vm_compute. reflexivity. }
  split; [|reflexivity].
  intros [msg H]. vm_compute in H. discriminate H.
Qed.

Lemma first_sheet_selected_witness :
  Demo.main Demo.os_ok (Demo.args None) Demo.empty_world
  = Demo.profile Demo.os_ok (Demo.args None) Demo.ventas
      (World ∅
         (log Demo.loaded_world
          ++ [using_first_sheet (KStr (lit "Sheet1"))])).
Proof.
  apply (proj2 (first_sheet_selected Demo.no_unicode_digit Demo.max_str_digits
           Demo.os_ok Demo.describe_error
           Demo.ensure_dir Demo.read_any Demo.data_overview
           Demo.data_dictionary Demo.quality_flags Demo.save_dictionary_csv
           Demo.plot_missing_bar Demo.plot_histograms Demo.plot_boxplots
           Demo.plot_correlation
           (Demo.args None) Demo.empty_world
           (KStr (lit "Sheet1")) Demo.ventas
           [(KStr (lit "2"), Demo.notas)] Demo.loaded_world)).
  reflexivity.
Defined.



(** ** The normalised copy *)

Lemma columns_zip (names : list label) (data : list column) :
  length names = length data -> columns (zip names data) = names.
Proof.
  revert data. induction names as [|n r IH]; intros [|c data]; simpl;
    try done.
  intros [= H]. f_equal. by apply IH.
Qed.

Lemma values_zip (names : list label) (data : list column) :
  length names = length data -> values (zip names data) = data.
Proof.
  revert data. induction names as [|n r IH]; intros [|c data]; simpl;
    try done.
  intros [= H]. f_equal. by apply IH.
Qed.

Lemma renamed_columns t :
  columns (renamed t) = List.map (fun c => LStr (normalize_name c)) (columns t).
Proof.
  apply columns_zip. unfold columns, values. by rewrite !length_map.
Qed.

Lemma renamed_values t : values (renamed t) = values t.
Proof.
  apply values_zip. unfold columns, values. by rewrite !length_map.
Qed.

Lemma normalize_columns_eq (h : store) (df : nat) (t : table) :
  h !! df = Some t ->
  normalize_columns df h = Ok (length h, h ++ [renamed t]).
Proof.
  intros H. unfold normalize_columns, df_copy, get_columns, set_columns.
  rewrite H. simpl.
  rewrite (lookup_app_l_Some _ _ _ _ H). simpl.
  rewrite list_lookup_middle by done.
  rewrite decide_True by (unfold columns; by rewrite !length_map).
  do 2 f_equal.
  rewrite insert_app_r_alt by done.
  by rewrite Nat.sub_diag.
Qed.

Lemma lstrip_split p (s : pystr) :
  exists a, s = a ++ Str.lstrip p s /\ Forall (fun c => p c = true) a.
Proof.
  induction s as [|c r (a & IH & Ha)]; simpl.
  - by exists [].
  - destruct (p c) eqn:E.
    + exists (c :: a). split; [simpl; by f_equal|by constructor].
    + by exists [].
Qed.

Lemma rstrip_split p (s : pystr) :
  exists b, s = Str.rstrip p s ++ b /\ Forall (fun c => p c = true) b.
Proof.
  unfold Str.rstrip.
  destruct (lstrip_split p (rev s)) as (a & Ha & Hall).
  exists (rev a). split; [|by apply Forall_rev].
  rewrite <- rev_app_distr, <- Ha. by rewrite rev_involutive.
Qed.

Lemma strip_split p (s : pystr) :
  exists a b,
    s = a ++ Str.strip p s ++ b
    /\ Forall (fun c => p c = true) a /\ Forall (fun c => p c = true) b.
Proof.
  unfold Str.strip.
  destruct (lstrip_split p s) as (a & Ha & Hall).
  destruct (rstrip_split p (Str.lstrip p s)) as (b & Hb & Hbll).
  exists a, b. by rewrite <- Hb.
Qed.

Lemma replace_length old new (s : pystr) :
  length (Str.replace old new s) = length s.
Proof. unfold Str.replace. apply length_map. Qed.

Lemma replace_lookup old new (s : pystr) i ch :
  s !! i = Some ch ->
  Str.replace old new s !! i = Some (if ch =? old then new else ch).
Proof.
  unfold Str.replace. revert i.
  induction s as [|c r IH]; intros [|i]; simpl; try done.
  - by intros [= ->].
  - apply IH.
Qed.

(** What [normalize_name] does to a label, in words of the text. *)
Lemma normalize_name_spec (c : label) :
  normalised_from c (LStr (normalize_name c)).
Proof.
  destruct (strip_split Str.isspace (py_str c)) as (a & b & Hs & Ha & Hb).
  exists a, (Str.strip Str.isspace (py_str c)), b, (normalize_name c).
  split; [done|]. split; [done|]. split; [done|].
  split; [apply strip_clean_ends|]. split; [done|].
  unfold normalize_name. split; [apply replace_length|].
  intros i ch. apply replace_lookup.
Qed.

Lemma renamed_normalised (t : table) :
  Forall2 normalised_from (columns t) (columns (renamed t)).
Proof.
  rewrite renamed_columns.
  induction (columns t) as [|c r IH]; simpl; constructor; [|done].
  apply normalize_name_spec.
Qed.

(** C6. The normalisation makes a new table: each of its column names is
    the old name at that place turned into text, trimmed of white space
    at both ends and with every remaining space replaced by an
    underscore; the order of the columns and every cell are those of
    the input; and the input table, like every other table of the
    store, is left as it was. *)
Theorem normalize_columns_fresh (h : store) (df : nat) (t : table) :
  h !! df = Some t ->
  exists (df_cols_norm : nat) (h' : store) (t' : table),
    normalize_columns df h = Ok (df_cols_norm, h')
    /\ df_cols_norm <> df
    /\ h' !! df = Some t
    /\ (forall r, r <> df_cols_norm -> h' !! r = h !! r)
    /\ h' !! df_cols_norm = Some t'
    /\ Forall2 normalised_from (columns t) (columns t')
    /\ values t' = values t.
Proof.
  intros H. exists (length h), (h ++ [renamed t]), (renamed t).
  pose proof (lookup_lt_Some _ _ _ H) as Hlt.
  split; [by apply normalize_columns_eq|].
  split; [lia|].
  split; [by apply lookup_app_l_Some|].
  split.
  { intros r Hr. destruct (decide (r < length h)%nat).
    - by rewrite lookup_app_l.
    - rewrite !lookup_ge_None_2; [done|lia|].
      rewrite length_app. simpl. lia. }
  split; [by rewrite list_lookup_middle|].
  split; [apply renamed_normalised | apply renamed_values].
Qed.

Lemma normalize_columns_fresh_witness :
  exists (df_cols_norm : nat) (h' : store) (t' : table),
    normalize_columns 1 [Demo.notas; Demo.ventas] = Ok (df_cols_norm, h')
    /\ df_cols_norm <> 1%nat
    /\ h' !! 1%nat = Some Demo.ventas
    /\ (forall r, r <> df_cols_norm ->
                  h' !! r = [Demo.notas; Demo.ventas] !! r)
    /\ h' !! df_cols_norm = Some t'
    /\ Forall2 normalised_from (columns Demo.ventas) (columns t')
    /\ values t' = values Demo.ventas.
Proof.
  apply (normalize_columns_fresh [Demo.notas; Demo.ventas] 1 Demo.ventas).
  reflexivity.
Defined.

(** A name that is normalised from another holds no space. *)
Lemma normalised_from_no_space old name :
  normalised_from old (LStr name) -> 32 ∉ name.
Proof.
  intros (lead & trimmed & trail & name' & _ & _ & _ & _ & [= <-]
          & Hlen & Hch) Hin.
  apply list_elem_of_lookup in Hin as [i Hi].
  pose proof (lookup_lt_Some _ _ _ Hi) as Hlt. rewrite Hlen in Hlt.
  destruct (lookup_lt_is_Some_2 trimmed i Hlt) as [ch Hc].
  rewrite (Hch i ch Hc) in Hi. injection Hi as Hi.
  destruct (N.eqb_spec ch 32); [discriminate Hi|congruence].
Qed.

(** The same on the first column of the demo table: the blank in front
    goes and the two inner blanks become underscores; the name with its
    blanks is not a normalised name. *)
Example normalised_from_ex :
  normalised_from (LStr (lit " Precio de venta"))
    (LStr (lit "Precio_de_venta"))
  /\ ~ normalised_from (LStr (lit " Precio de venta"))
         (LStr (lit "Precio de venta")).
Proof.
  split; [apply (normalize_name_spec (LStr (lit " Precio de venta")))|].
  intros H%normalised_from_no_space. apply H.
  apply (bool_decide_unpack _). vm_compute. reflexivity.
Qed.

Lemma normalized_copy_eq (df : table) : normalized_copy df = Ok (renamed df).
Proof.
  unfold normalized_copy.
  by rewrite (normalize_columns_eq [df] 0 df eq_refl).
Qed.

Example normalized_copy_ex :
  (fun r => match r with Ok t => columns t | Raise _ => [] end)
    (normalized_copy Demo.ventas)
  = [LStr (lit "Precio_de_venta"); LStr (lit "a/b"); LStr (lit "a_b");
     LStr (lit "3")].
Proof. reflexivity. Qed.

(** ** The export of the profiling tables *)

Lemma top20_path_inj a b : top20_path a = top20_path b -> a = b.
Proof.
  unfold top20_path. intros H%app_inv_head. by apply app_inv_tail in H.
Qed.


Lemma renamed_is_str df :
  Forall (fun c => is_str c = true) (columns (renamed df)).
Proof.
  rewrite renamed_columns. apply Forall_forall.
  intros c [x [<- _]]%list_elem_of_In%in_map_iff. done.
Qed.

Lemma select_non_number_is_str t :
  Forall (fun c => is_str c = true) (columns t) ->
  Forall (fun c => is_str c = true) (columns (select_non_number t)).
Proof.
  rewrite !Forall_forall. intros H c Hc. apply H.
  apply list_elem_of_In, in_map_iff in Hc as [lc [<- Hlc]].
  apply filter_In in Hlc as [Hlc _].
  apply list_elem_of_In, in_map_iff. by exists lc.
Qed.

(** *** [cat[c]] *)

Lemma getitem_cons c lc t :
  getitem c (lc :: t)
  = if bool_decide (lc.1 = c) then lc.2 :: getitem c t else getitem c t.
Proof. unfold getitem. simpl. by destruct (bool_decide (lc.1 = c)). Qed.

Lemma entry_columns (t : table) c col : (c, col) ∈ t -> c ∈ columns t.
Proof.
  intros H. apply list_elem_of_In, in_map_iff. exists (c, col).
  split; [done|]. by apply list_elem_of_In.
Qed.

Lemma columns_entry (t : table) c :
  c ∈ columns t -> exists col, (c, col) ∈ t.
Proof.
  intros ([c' col] & <- & H%list_elem_of_In)%list_elem_of_In%in_map_iff.
  by exists col.
Qed.

Lemma getitem_absent c t : c ∉ columns t -> getitem c t = [].
Proof.
  induction t as [|[c0 col0] r IH]; [done|].
  intros H. rewrite getitem_cons. simpl.
  rewrite bool_decide_false.
  - apply IH. intros Hc. apply H. by apply list_elem_of_further.
  - intros ->. apply H. apply list_elem_of_here.
Qed.

Lemma getitem_present c t : c ∈ columns t -> getitem c t <> [].
Proof.
  induction t as [|[c0 col0] r IH]; simpl.
  { by intros ?%elem_of_nil. }
  intros H. rewrite getitem_cons. simpl. case_bool_decide as E; [done|].
  apply IH. apply elem_of_cons in H as [->|H]; done.
Qed.

(** Under a label that is there once, [cat[c]] is its one column. *)
Lemma getitem_unique (t : table) c col :
  NoDup (columns t) -> (c, col) ∈ t -> getitem c t = [col].
Proof.
  induction t as [|[c0 col0] r IH]; simpl.
  { by intros _ ?%elem_of_nil. }
  intros [Hc0 Hnd]%NoDup_cons Hin. rewrite getitem_cons. simpl.
  apply elem_of_cons in Hin as [[= -> ->]|Hin].
  - rewrite bool_decide_true by done. by rewrite getitem_absent.
  - rewrite bool_decide_false; [by apply IH|].
    intros ->. apply Hc0. by apply (entry_columns r c col).
Qed.

Lemma getitem_single_all (t : table) :
  NoDup (columns t) ->
  Forall (fun c => exists col, getitem c t = [col]) (columns t).
Proof.
  intros Hnd. apply Forall_forall. intros c [col Hc]%columns_entry.
  exists col. by apply getitem_unique.
Qed.

Section ExportFacts.

Variable os_error : pystr -> content -> option exn.
Variable describe_error : table -> option exn.


Lemma export_numeric_summary_some t :
  select_number t <> [] ->
  export_numeric_summary os_error describe_error t
  = match describe_error (select_number t) with
    | Some e => raise e
    | None =>
        write_file os_error (lit "reports/numeric_summary.csv")
          (CsvDescribe (select_number t))
    end.
Proof.
  intros E. unfold export_numeric_summary, shape1.
  destruct (select_number t) as [|lc r]; [done|].
  by assert ((0 <? N.of_nat (length (lc :: r))) = true) as ->
    by (apply N.ltb_lt; simpl; lia).
Qed.


(** *** The loop over the non-numeric columns *)

Lemma export_loop_closed cat cols freq_out w :
  Forall (fun c => is_str c = true) cols ->
  Forall (fun c => exists col, getitem c cat = [col]) cols ->
  export_loop os_error cat cols freq_out w
  = (Ok (freq_out ++ written_columns os_error cat cols),
     World (files_after os_error cat cols (files w))
       (log w ++ refusal_warnings os_error cat cols)).
Proof.
  intros H. revert freq_out w.
  induction H as [|c rest Hc Hrest IH]; intros freq_out w Hone.
  - simpl. unfold ret. rewrite !app_nil_r. by destruct w.
  - apply Forall_cons in Hone as [[col Hcol] Hone].
    destruct c as [s|]; [|done].
    cbn [export_loop]. unfold bind at 1. rewrite Hcol. simpl.
    unfold bind at 1. simpl.
    unfold bind at 1, try_except, bind at 1, write_file.
    unfold written, refusal, top20_file. rewrite Hcol. simpl.
    destruct (os_error _ _) as [e|] eqn:E.
    + simpl. rewrite IH by done. simpl. by rewrite <- app_assoc.
    + simpl. rewrite IH by done. simpl. by rewrite <- app_assoc.
Qed.

Lemma files_after_app cat l1 l2 fs :
  files_after os_error cat (l1 ++ l2) fs
  = files_after os_error cat l2 (files_after os_error cat l1 fs).
Proof.
  revert fs. induction l1 as [|c r IH]; intros fs; simpl; [done|].
  by destruct (refusal os_error cat c).
Qed.

Lemma files_after_frame cat cols fs p :
  (forall c, c ∈ cols -> written os_error cat c = true ->
             (top20_file cat c).1 <> p) ->
  files_after os_error cat cols fs !! p = fs !! p.
Proof.
  revert fs. induction cols as [|c r IH]; intros fs H; simpl; [done|].
  assert (forall c', c' ∈ r -> written os_error cat c' = true ->
                     (top20_file cat c').1 <> p) as Hr
    by (intros c' Hc'; apply H; by apply list_elem_of_further).
  pose proof (H c (list_elem_of_here _ _)) as Hc.
  unfold written in Hc.
  destruct (refusal os_error cat c); [by apply IH|].
  rewrite IH by done. apply lookup_insert_ne. by apply Hc.
Qed.

(** The last accepted write to a path decides the file. *)
Lemma files_after_last cat l1 c l2 fs :
  refusal os_error cat c = None ->
  (forall c', c' ∈ l2 -> written os_error cat c' = true ->
              (top20_file cat c').1 <> (top20_file cat c).1) ->
  files_after os_error cat (l1 ++ c :: l2) fs !! (top20_file cat c).1
  = Some (top20_file cat c).2.
Proof.
  intros Hc Hl2. rewrite files_after_app. simpl. rewrite Hc.
  rewrite files_after_frame by done. apply lookup_insert_eq.
Qed.


Lemma written_columns_elem cat cols c :
  c ∈ written_columns os_error cat cols
  <-> c ∈ cols /\ refusal os_error cat c = None.
Proof.
  unfold written_columns.
  rewrite !list_elem_of_In, filter_In. unfold written.
  destruct (refusal os_error cat c); split; intros [? ?]; done.
Qed.


Lemma refusal_warnings_none cat cols :
  (forall c, c ∈ cols -> refusal os_error cat c = None) ->
  refusal_warnings os_error cat cols = [].
Proof.
  induction cols as [|c0 r IH]; intros H; simpl; [done|].
  rewrite (H c0 (list_elem_of_here _ _)). apply IH.
  intros c Hc. apply H. by apply list_elem_of_further.
Qed.

(** The loop on a normalised table whose non-numeric columns have
    distinct names. *)
Lemma export_categorical_closed df w :
  NoDup (columns (select_non_number (renamed df))) ->
  export_categorical os_error (renamed df) w
  = (Ok (written_columns os_error (select_non_number (renamed df))
           (columns (select_non_number (renamed df)))),
     World
       (files_after os_error (select_non_number (renamed df))
          (columns (select_non_number (renamed df))) (files w))
       (log w
        ++ refusal_warnings os_error (select_non_number (renamed df))
             (columns (select_non_number (renamed df))))).
Proof.
  intros Hnd. unfold export_categorical.
  rewrite export_loop_closed; [done| |by apply getitem_single_all].
  apply select_non_number_is_str, renamed_is_str.
Qed.

(** The answer of the operating system for a column that is there
    once. *)
Lemma refusal_entry cat c col :
  NoDup (columns cat) -> (c, col) ∈ cat ->
  refusal os_error cat c
  = os_error (top20_path (clean_filename (py_str c)))
      (CsvValueCounts [col]).
Proof.
  intros Hnd Hin. unfold refusal, top20_file. simpl.
  by rewrite (getitem_unique cat c col).
Qed.

End ExportFacts.


(** C9. [clean_filename] is not injective, and the loop writes the
    tables of two columns of distinct names and one sanitised name to
    one path: when every write is accepted, both columns are recorded
    in [freq_out], nothing is logged, and the file holds the counts of
    the later column, not those of the earlier one. *)
Theorem clean_filename_collision :
  (exists a b, a <> b /\ clean_filename a = clean_filename b)
  /\ forall (os_error : pystr -> content -> option exn) (df : table)
       (w : world) (l1 l2 : list label) (n1 n2 : pystr)
       (col1 col2 : column),
       (forall p c, os_error p c = None) ->
       NoDup (columns (select_non_number (renamed df))) ->
       columns (select_non_number (renamed df)) = l1 ++ LStr n2 :: l2 ->
       LStr n1 ∈ l1 ->
       (LStr n1, col1) ∈ select_non_number (renamed df) ->
       (LStr n2, col2) ∈ select_non_number (renamed df) ->
       clean_filename n1 = clean_filename n2 ->
       (forall c, c ∈ l2 ->
                  clean_filename (py_str c) <> clean_filename n2) ->
       exists (freq_out : list label) (w' : world),
         export_categorical os_error (renamed df) w = (Ok freq_out, w')
         /\ n1 <> n2
         /\ LStr n1 ∈ freq_out /\ LStr n2 ∈ freq_out
         /\ log w' = log w
         /\ files w' !! top20_path (clean_filename n1)
            = Some (CsvValueCounts [col2])
         /\ (col1 <> col2 ->
             files w' !! top20_path (clean_filename n1)
             <> Some (CsvValueCounts [col1])).
Proof.
  split.
  { exists (lit "a/b"), (lit "a_b"). split; [discriminate|reflexivity]. }
  intros os_error df w l1 l2 n1 n2 col1 col2
         Hos Hnd Hcols Hn1 Hin1 Hin2 Hclean Hl2.
  set (cat := select_non_number (renamed df)) in *.
  assert (forall c, refusal os_error cat c = None) as Hacc
    by (intros c; apply Hos).
  assert (files_after os_error cat (columns cat) (files w)
            !! top20_path (clean_filename n1)
          = Some (CsvValueCounts [col2])) as Hfile.
  { rewrite Hclean, Hcols.
    rewrite <- (getitem_unique cat (LStr n2) col2 Hnd Hin2).
    apply (files_after_last os_error cat l1 (LStr n2) l2); [done|].
    intros c Hc _ Hp. apply (Hl2 c Hc). by apply top20_path_inj. }
  eexists _, _. split; [by apply export_categorical_closed|].
  fold cat. cbn [files log app].
  split.
  { intros ->. rewrite Hcols in Hnd.
    apply NoDup_app in Hnd as (_ & Hnd & _).
    apply (Hnd _ Hn1). apply list_elem_of_here. }
  split; [|split; [|split; [|split]]].
  - apply written_columns_elem. split; [|done].
    rewrite Hcols, elem_of_app. by left.
  - apply written_columns_elem. split; [|done].
    rewrite Hcols, elem_of_app. right. apply list_elem_of_here.
  - rewrite refusal_warnings_none by done. apply app_nil_r.
  - done.
  - intros Hne. rewrite Hfile. intros [= E]. by apply Hne.
Qed.

Lemma clean_filename_collision_witness :
  exists (freq_out : list label) (w' : world),
    export_categorical Demo.os_ok (renamed Demo.ventas) Demo.empty_world
    = (Ok freq_out, w')
    /\ lit "a/b" <> lit "a_b"
    /\ LStr (lit "a/b") ∈ freq_out /\ LStr (lit "a_b") ∈ freq_out
    /\ log w' = []
    /\ files w' !! top20_path (clean_filename (lit "a/b"))
       = Some (CsvValueCounts
                 [Column Object [StrCell (lit "u"); StrCell (lit "v")]])
    /\ (Column Object [StrCell (lit "x"); NA]
        <> Column Object [StrCell (lit "u"); StrCell (lit "v")] ->
        files w' !! top20_path (clean_filename (lit "a/b"))
        <> Some (CsvValueCounts [Column Object [StrCell (lit "x"); NA]])).
Proof.
  apply (proj2 clean_filename_collision Demo.os_ok Demo.ventas
           Demo.empty_world [LStr (lit "a/b")] [LStr (lit "3")]
           (lit "a/b") (lit "a_b")
           (Column Object [StrCell (lit "x"); NA])
           (Column Object [StrCell (lit "u"); StrCell (lit "v")])).
  - reflexivity.
  - apply (bool_decide_unpack _). vm_compute. reflexivity.
  - reflexivity.
  - apply list_elem_of_here.
  - apply list_elem_of_here.
  - apply list_elem_of_further, list_elem_of_here.
  - reflexivity.
  - intros c ->%list_elem_of_singleton. vm_compute. discriminate.
Defined.


Example export_isolated_ex :
  (export_categorical (Demo.os_refusing (top20_path (lit "a_b")))
     (renamed Demo.ventas) Demo.empty_world).1
  = Ok [LStr (lit "3")].
Proof. vm_compute. reflexivity. Qed.

(** On a repeated normalised name line 114 raises before any write. *)
Example export_repeated_ex :
  export_categorical Demo.os_ok (renamed Edge.repetida) Demo.empty_world
  = (Raise (Exn "ValueError" (lit "Grouper not 1-dimensional")),
     Demo.empty_world).
Proof. vm_compute. reflexivity. Qed.


Example main_ex_files :
  (fun r => (r.1, List.map fst (map_to_list (files r.2))))
    (Demo.main Demo.os_ok (Demo.args (Some (lit "Sheet1")))
       Demo.empty_world)
  = (fun r => (r.1, List.map fst (map_to_list (files r.2))))
      (Demo.main Demo.os_ok (Demo.args None) Demo.empty_world).
Proof. vm_compute. reflexivity. Qed.

(** A whole run in which the operating system refuses the path of the
    table of a_b: [main] returns, the two columns of that path are
    reported, and the dictionary, the flags and the table of the column
    3 are on disk. *)
Example main_ex_isolated :
  (fun r =>
     (r.1,
      List.filter
        (fun e => match e.1 with WARNING => true | _ => false end)
        (log r.2),
      bool_decide
        (is_Some (files r.2 !! lit "reports/data_dictionary.csv")),
      bool_decide
        (is_Some (files r.2 !! lit "reports/quality_flags.json")),
      bool_decide
        (is_Some (files r.2 !! top20_path (lit "3"))),
      bool_decide
        (is_Some (files r.2 !! top20_path (lit "a_b")))))
    (Demo.main (Demo.os_refusing (top20_path (lit "a_b")))
       (Demo.args (Some (lit "Sheet1"))) Demo.empty_world)
  = (Ok tt,
     [could_not_save (LStr (lit "a/b"))
        (Exn "OSError" (lit "Invalid argument"));
      could_not_save (LStr (lit "a_b"))
        (Exn "OSError" (lit "Invalid argument"))],
     true, true, true, false).
Proof. vm_compute. reflexivity. Qed.

(** * Further properties *)

(** ** More on [clean_filename] *)

Lemma has_run2_app_r p (a s : pystr) :
  has_run2 p (a ++ s) = false -> has_run2 p s = false.
Proof.
  induction a as [|x a IH]; [done|].
  intros H. apply IH.
  change ((x :: a) ++ s) with (x :: (a ++ s)) in H.
  destruct (a ++ s) as [|y r]; [done|].
  simpl in H. by apply orb_false_iff in H as [_ H].
Qed.

Lemma has_run2_app_l p (s b : pystr) :
  has_run2 p (s ++ b) = false -> has_run2 p s = false.
Proof.
  induction s as [|x s IH]; [done|].
  destruct s as [|y s]; [done|].
  change (has_run2 p (x :: y :: (s ++ b)) = false ->
          has_run2 p (x :: y :: s) = false).
  cbn [has_run2]. intros [H1 H2]%orb_false_iff.
  rewrite H1. simpl. by apply IH.
Qed.

Lemma clean_filename_allowed s :
  Forall (fun c => forbidden c = false) (clean_filename s).
Proof.
  rewrite clean_filename_limited.
  set (mid := Re.sub_plus is_underscore [underscore] (limited s)).
  assert (Forall (fun c => forbidden c = false) mid) as Hall
    by (by apply sub_plus_from_Forall; [|apply limited_allowed]).
  destruct (strip_infix is_underscore mid) as (a & b & Hmid).
  rewrite Hmid, !Forall_app in Hall. tauto.
Qed.

Lemma clean_filename_length s : (length (clean_filename s) <= 100)%nat.
Proof.
  rewrite clean_filename_limited.
  set (mid := Re.sub_plus is_underscore [underscore] (limited s)).
  destruct (strip_infix is_underscore mid) as (a & b & Hmid).
  pose proof (sub_plus_from_length false is_underscore underscore
                (limited s)) as H1.
  pose proof (limited_length s) as H2.
  fold (Re.sub_plus is_underscore [underscore] (limited s)) in H1.
  fold mid in H1. rewrite Hmid, !length_app in H1. lia.
Qed.

Lemma clean_filename_no_run s :
  has_run2 is_underscore (clean_filename s) = false.
Proof.
  rewrite clean_filename_limited.
  set (mid := Re.sub_plus is_underscore [underscore] (limited s)).
  destruct (strip_infix is_underscore mid) as (a & b & Hmid).
  assert (has_run2 is_underscore mid = false) as Hrun
    by apply sub_plus_from_no_run.
  rewrite Hmid in Hrun.
  by apply has_run2_app_r, has_run2_app_l in Hrun.
Qed.

(** X3. The result of [clean_filename] neither starts nor ends with an
    underscore. *)
Theorem clean_filename_trimmed (filename : pystr) :
  head (clean_filename filename) <> Some underscore
  /\ last (clean_filename filename) <> Some underscore.
Proof.
  destruct (strip_clean_ends is_underscore
              (Re.sub_plus is_underscore [underscore] (limited filename)))
    as [Hh Hl].
  rewrite clean_filename_limited. split; intros H.
  - by specialize (Hh _ H).
  - by specialize (Hl _ H).
Qed.

Lemma sub_class_id cls repl s :
  Forall (fun c => cls c = false) s -> Re.sub_class cls repl s = s.
Proof.
  induction 1 as [|c r Hc Hr IH]; simpl; [done|]. by rewrite Hc, IH.
Qed.

Lemma sub_plus_from_id b cls c s :
  (forall x, cls x = true -> x = c) ->
  has_run2 cls s = false ->
  (b = true -> forall x, head s = Some x -> cls x = false) ->
  Re.sub_plus_from b cls [c] s = s.
Proof.
  intros Hcls. revert b. induction s as [|x r IH]; intros b Hrun Hb; [done|].
  assert (has_run2 cls r = false) as Hr.
  { destruct r as [|y r']; [done|]. simpl in Hrun.
    by apply orb_false_iff in Hrun as [_ Hrun]. }
  simpl. destruct (cls x) eqn:E.
  - destruct b; [by rewrite (Hb eq_refl x eq_refl) in E|].
    simpl. rewrite (Hcls x E). f_equal.
    apply IH; [done|]. intros _ y Hy.
    destruct r as [|z r']; [done|]. injection Hy as ->.
    simpl in Hrun. apply orb_false_iff in Hrun as [Hrun _].
    by rewrite E in Hrun.
  - f_equal. by apply IH.
Qed.

Lemma is_underscore_eq x : is_underscore x = true -> x = underscore.
Proof. unfold is_underscore. by intros H%N.eqb_eq. Qed.

Lemma clean_filename_is_clean s :
  Forall (fun c => forbidden c = false) (clean_filename s)
  /\ Str.len (clean_filename s) <= 100
  /\ has_run2 is_underscore (clean_filename s) = false
  /\ clean_ends is_underscore (clean_filename s).
Proof.
  split; [apply clean_filename_allowed|].
  split.
  { pose proof (clean_filename_length s). unfold Str.len. lia. }
  split; [apply clean_filename_no_run|].
  rewrite clean_filename_limited. apply strip_clean_ends.
Qed.

Lemma clean_filename_of_clean s :
  Forall (fun c => forbidden c = false) s ->
  Str.len s <= 100 ->
  has_run2 is_underscore s = false ->
  clean_ends is_underscore s ->
  clean_filename s = s.
Proof.
  intros Hall Hlen Hrun Hends.
  unfold clean_filename.
  rewrite (sub_class_id _ _ _ Hall).
  apply N.ltb_ge in Hlen as ->.
  unfold Re.sub_plus.
  rewrite sub_plus_from_id; [by apply strip_id | | done | done].
  apply is_underscore_eq.
Qed.

(** X1. The names that [clean_filename] leaves unchanged are exactly the
    names that are already clean: no forbidden character, at most 100
    characters, no two adjacent underscores and no underscore at either
    end. *)
Theorem clean_filename_fixed_point (filename : pystr) :
  clean_filename filename = filename
  <-> Forall (fun c => forbidden c = false) filename
      /\ Str.len filename <= 100
      /\ has_run2 is_underscore filename = false
      /\ clean_ends is_underscore filename.
Proof.
  split.
  - intros E. rewrite <- E. apply clean_filename_is_clean.
  - intros (Hall & Hlen & Hrun & Hends). by apply clean_filename_of_clean.
Qed.

(** X2. [clean_filename] is idempotent: cleaning a cleaned name gives it
    back. *)
Theorem clean_filename_idempotent (filename : pystr) :
  clean_filename (clean_filename filename) = clean_filename filename.
Proof.
  destruct (clean_filename_is_clean filename) as (H1 & H2 & H3 & H4).
  by apply clean_filename_of_clean.
Qed.

Lemma sub_plus_from_app_clean b cls c (s t : pystr) :
  Forall (fun x => cls x = false) t ->
  Re.sub_plus_from b cls [c] (s ++ t) = Re.sub_plus_from b cls [c] s ++ t.
Proof.
  intros Ht.
  assert (forall b', Re.sub_plus_from b' cls [c] t = t) as Hclean.
  { induction Ht as [|y t Hy Ht IH]; intros b'; simpl; [done|].
    by rewrite Hy, IH. }
  revert b. induction s as [|x r IH]; intros b.
  - apply Hclean.
  - simpl. destruct (cls x), b; simpl; by rewrite IH.
Qed.

Lemma lstrip_app_keep p (y t : pystr) x :
  p x = false -> Str.lstrip p (y ++ x :: t) = Str.lstrip p y ++ x :: t.
Proof.
  intros Hx. induction y as [|z y IH]; simpl.
  - by rewrite Hx.
  - by destruct (p z).
Qed.

Lemma rstrip_id p (s : pystr) :
  (forall c, last s = Some c -> p c = false) -> Str.rstrip p s = s.
Proof.
  intros H. unfold Str.rstrip.
  rewrite lstrip_id; [apply rev_involutive|].
  intros c. rewrite head_rev. apply H.
Qed.

Lemma lstrip_all p (s : pystr) :
  Forall (fun c => p c = true) s -> Str.lstrip p s = [].
Proof. induction 1 as [|c r Hc Hr IH]; simpl; [done|]. by rewrite Hc. Qed.

(** What [clean_filename] returns for an input of more than 100
    characters. *)
Lemma clean_filename_long s :
  100 < Str.len s ->
  clean_filename s
  = Str.lstrip is_underscore (collapse (Str.slice_to 97 (replaced s)))
    ++ lit "...".
Proof.
  intros H. unfold clean_filename. fold (replaced s).
  assert (Str.len (replaced s) = Str.len s) as ->
    by (unfold Str.len, replaced; f_equal; apply sub_class_length).
  apply N.ltb_lt in H as ->.
  unfold Re.sub_plus.
  rewrite sub_plus_from_app_clean by (by repeat constructor).
  fold (Re.sub_plus is_underscore [underscore] (Str.slice_to 97 (replaced s))).
  fold (collapse (Str.slice_to 97 (replaced s))).
  unfold Str.strip.
  change (lit "...") with (46 :: lit "..") at 1.
  rewrite lstrip_app_keep by done.
  apply rstrip_id. intros c.
  change (46 :: lit "..") with (lit "...").
  rewrite last_app. simpl. by intros [= <-].
Qed.

(** X5. For an input of more than 100 characters the result ends with
    the three dots, after at most 97 characters of the cleaned input. *)
Theorem clean_filename_long_marked (filename : pystr) :
  100 < Str.len filename ->
  exists kept,
    clean_filename filename = kept ++ lit "..."
    /\ Str.len kept <= 97.
Proof.
  intros H. rewrite (clean_filename_long _ H).
  eexists. split; [done|].
  destruct (lstrip_suffix is_underscore
              (collapse (Str.slice_to 97 (replaced filename))))
    as [a Ha].
  pose proof (sub_plus_from_length false is_underscore underscore
                (Str.slice_to 97 (replaced filename))) as H1.
  fold (Re.sub_plus is_underscore [underscore]
          (Str.slice_to 97 (replaced filename))) in H1.
  fold (collapse (Str.slice_to 97 (replaced filename))) in H1.
  rewrite Ha, length_app in H1.
  unfold Str.slice_to in H1 at 2. rewrite length_take in H1.
  unfold Str.len. lia.
Qed.

Lemma clean_filename_long_marked_witness :
  exists kept,
    clean_filename (replicate 60 underscore ++ replicate 60 100)
    = kept ++ lit "..."
    /\ Str.len kept <= 97.
Proof.
  apply (clean_filename_long_marked
           (replicate 60 underscore ++ replicate 60 100)).
  vm_compute. reflexivity.
Defined.

(** X6. The result of [clean_filename] is never longer than its
    input. *)
Theorem clean_filename_not_longer (filename : pystr) :
  Str.len (clean_filename filename) <= Str.len filename.
Proof.
  destruct (N.le_gt_cases (Str.len filename) 100) as [H|H].
  - unfold clean_filename. fold (replaced filename).
    assert (Str.len (replaced filename) = Str.len filename) as Hlen
      by (unfold Str.len, replaced; f_equal; apply sub_class_length).
    rewrite Hlen. apply N.ltb_ge in H as ->.
    set (mid := Re.sub_plus is_underscore [underscore] (replaced filename)).
    destruct (strip_infix is_underscore mid) as (a & b & Hmid).
    pose proof (sub_plus_from_length false is_underscore underscore
                  (replaced filename)) as H1.
    fold (Re.sub_plus is_underscore [underscore] (replaced filename)) in H1.
    fold mid in H1. rewrite Hmid, !length_app in H1.
    unfold Str.len in *. lia.
  - pose proof (clean_filename_length filename).
    unfold Str.len in *. lia.
Qed.

(** X4. A name made only of forbidden characters and underscores is
    cleaned to the empty string when it has at most 100 characters, and
    to the three dots alone when it has more. *)
Theorem clean_filename_of_separators (filename : pystr) :
  Forall (fun c => forbidden c || is_underscore c = true) filename ->
  (Str.len filename <= 100 -> clean_filename filename = [])
  /\ (100 < Str.len filename -> clean_filename filename = lit "...").
Proof.
  intros Hsep.
  assert (Forall (fun c => is_underscore c = true) (replaced filename))
    as Hus.
  { unfold replaced. induction Hsep as [|c r Hc Hr IH]; simpl; [done|].
    destruct (forbidden c) eqn:E; simpl; constructor; auto. }
  split; intros H.
  - unfold clean_filename. fold (replaced filename).
    assert (Str.len (replaced filename) = Str.len filename) as ->
      by (unfold Str.len, replaced; f_equal; apply sub_class_length).
    apply N.ltb_ge in H as ->.
    unfold Str.strip. rewrite lstrip_all; [done|].
    by apply sub_plus_from_Forall.
  - rewrite (clean_filename_long _ H).
    rewrite lstrip_all; [done|].
    apply sub_plus_from_Forall; [done|]. by apply Forall_take.
Qed.

Lemma clean_filename_of_separators_witness :
  clean_filename (lit "//__::") = []
  /\ clean_filename (replicate 150 47) = lit "...".
Proof.
  split.
  - apply (clean_filename_of_separators (lit "//__::")).
    + repeat constructor.
    + vm_compute. discriminate.
  - apply (clean_filename_of_separators (replicate 150 47)).
    + apply Forall_replicate. reflexivity.
    + vm_compute. reflexivity.
Defined.

(** X7. The path of a top-20 table holds the slash at one place only,
    index 7, after [reports]: whatever the column name, no slash of the
    name reaches the path. *)
Theorem top20_path_one_slash (name : pystr) (i : nat) :
  top20_path (clean_filename name) !! i = Some 47 <-> i = 7%nat.
Proof.
  split; [|by intros ->].
  unfold top20_path. intros H.
  apply lookup_app_Some in H as [H|[Hi H]].
  - do 8 (destruct i as [|i]; [by (done || discriminate H)|]). done.
  - exfalso. apply lookup_app_Some in H as [H|[_ H]].
    + pose proof (clean_filename_allowed name) as Hall.
      rewrite Forall_forall in Hall.
      by specialize (Hall 47 (list_elem_of_lookup_2 _ _ _ H)).
    + assert (Forall (fun c => c <> 47) (lit "_top20_value_counts.csv"))
        as Hsuf by (repeat constructor; discriminate).
      rewrite Forall_forall in Hsuf.
      by apply (Hsuf 47 (list_elem_of_lookup_2 _ _ _ H)).
Qed.

(** The backslash is not in the class that [clean_filename] replaces. *)
Example clean_filename_backslash :
  clean_filename (lit "a" ++ [92] ++ lit "b") = lit "a" ++ [92] ++ lit "b".
Proof. reflexivity. Qed.

(** ** More on the sheet selection *)

Lemma dict_contains_get k d :
  dict_contains k d = true <-> is_Some (dict_get k d).
Proof.
  unfold dict_contains. rewrite bool_decide_eq_true.
  induction d as [|[k' t'] r IH]; simpl.
  - split; [by intros ?%elem_of_nil | by intros [? ?]].
  - rewrite elem_of_cons. case_decide as E.
    + split; [by eexists | by left].
    + rewrite <- IH. split; [intros [->|?]; done | by right].
Qed.

Lemma dict_get_entry k t d :
  NoDup (dict_keys d) -> (k, t) ∈ d -> dict_get k d = Some t.
Proof.
  induction d as [|[k' t'] r IH]; simpl; intros Hnd Hin.
  { by apply elem_of_nil in Hin. }
  apply NoDup_cons in Hnd as [Hk' Hnd].
  apply elem_of_cons in Hin as [[= -> ->]|Hin].
  - by rewrite decide_True.
  - rewrite decide_False; [by apply IH|].
    intros ->. apply Hk'.
    apply list_elem_of_In, in_map_iff. exists (k, t).
    split; [done|]. by apply list_elem_of_In.
Qed.

(** X9. When the selector is a key of the mapping, the table stored
    under that key is selected, nothing is logged and no file changes. *)
Theorem select_sheet_found (k : key) (t : table) (d : list (key * table))
    (w : world) :
  NoDup (dict_keys d) -> (k, t) ∈ d ->
  select_sheet (Some k) (Multiple d) w = (Ok (Some t), w).
Proof.
  intros Hnd Hin. pose proof (dict_get_entry k t d Hnd Hin) as Hget.
  simpl.
  assert (dict_contains k d = true) as ->
    by (apply dict_contains_get; by rewrite Hget).
  by rewrite Hget.
Qed.

Lemma select_sheet_found_witness :
  select_sheet (Some (KStr (lit "2"))) (Multiple Demo.workbook)
    Demo.empty_world
  = (Ok (Some Demo.notas), Demo.empty_world).
Proof.
  apply (select_sheet_found (KStr (lit "2")) Demo.notas Demo.workbook
           Demo.empty_world).
  - apply (bool_decide_unpack _). vm_compute. reflexivity.
  - apply list_elem_of_further, list_elem_of_here.
Defined.

(** X8. The sheet selection raises in one case only: an empty mapping
    and no selector, where taking the first key raises [IndexError].  It
    never changes a file. *)
Theorem select_sheet_raises (sheet : option key) (df : loaded) (w : world)
    (e : exn) :
  ((select_sheet sheet df w).1 = Raise e
   <-> sheet = None /\ df = Multiple [] /\ e = no_first_sheet)
  /\ files (select_sheet sheet df w).2 = files w.
Proof.
  destruct df as [t|d]; [split; [split; [done|by intros (_ & ? & _)]|done]|].
  destruct sheet as [k|].
  - simpl. destruct (dict_contains k d) eqn:E.
    + apply dict_contains_get in E as [t Ht]. rewrite Ht.
      split; [split; [done|by intros (? & _)]|done].
    + split; [split; [done|by intros (? & _)]|done].
  - destruct d as [|[k t] r].
    + simpl. split; [|done]. split.
      * by intros [= <-].
      * by intros (_ & _ & ->).
    + simpl. unfold bind, logger_warning, logger. simpl.
      rewrite decide_True by done.
      split; [split; [done|by intros (_ & ? & _)]|done].
Qed.

(** ** More on [int()] and the sheet selector *)

Lemma lstrip_elem p (s : pystr) c :
  c ∈ s -> p c = false -> c ∈ Str.lstrip p s.
Proof.
  intros Hin Hc. induction s as [|x r IH]; [done|].
  simpl. destruct (p x) eqn:E; [|done].
  apply elem_of_cons in Hin as [->|Hin]; [congruence|by apply IH].
Qed.

Lemma elem_rev (s : pystr) c : c ∈ rev s <-> c ∈ s.
Proof. rewrite !list_elem_of_In. symmetry. apply in_rev. Qed.

Lemma strip_elem p (s : pystr) c :
  c ∈ s -> p c = false -> c ∈ Str.strip p s.
Proof.
  intros Hin Hc. unfold Str.strip, Str.rstrip.
  apply elem_rev, lstrip_elem; [|done].
  apply elem_rev. by apply lstrip_elem.
Qed.

Lemma digits_value_bad ud acc b (s : pystr) c :
  c ∈ s -> c <> underscore -> digit_value ud c = None ->
  digits_value ud acc b s = None.
Proof.
  intros Hin Hu Hd. revert acc b.
  induction s as [|x r IH]; intros acc b.
  { by apply elem_of_nil in Hin. }
  simpl. apply elem_of_cons in Hin as [<-|Hin].
  - apply N.eqb_neq in Hu as ->. by rewrite Hd.
  - destruct (x =? underscore).
    + destruct b; [by apply IH|done].
    + destruct (digit_value ud x); [by apply IH|done].
Qed.

Lemma digits_int_bad ud mx (s : pystr) c :
  c ∈ s -> c <> underscore -> digit_value ud c = None ->
  digits_int ud mx s = None.
Proof.
  intros Hin Hu Hd. unfold digits_int.
  by rewrite (digits_value_bad ud _ _ s c).
Qed.

Lemma py_int_bad ud mx (s : pystr) c :
  c ∈ s -> Str.isspace c = false ->
  c <> underscore -> c <> 43 -> c <> 45 ->
  digit_value ud c = None ->
  py_int ud mx s = None.
Proof.
  intros Hin Hsp Hu Hplus Hminus Hd. unfold py_int.
  pose proof (strip_elem int_space s c Hin
                (not_space_not_int_space c Hsp)) as Hc.
  destruct (Str.strip int_space s) as [|x r]; [done|].
  assert (x <> c -> c ∈ r) as Hr.
  { intros Hx. apply elem_of_cons in Hc as [->|Hc]; done. }
  destruct (N.eqb_spec x 43) as [->|_].
  { apply (digits_int_bad ud mx r c); auto. }
  destruct (N.eqb_spec x 45) as [->|_].
  { rewrite (digits_int_bad ud mx r c); auto. }
  by apply (digits_int_bad ud mx (x :: r) c).
Qed.

(** X10. A [--sheet] argument that holds an ASCII character other than
    a digit, a sign, an underscore or white space (a letter, say) is
    never turned into an integer: the selector is the string itself. *)
Theorem parse_sheet_name (ud : char -> option Z) (mx : N) (s : pystr)
    (c : char) :
  c ∈ s -> c < 128 ->
  is_ascii_digit c = false -> Str.isspace c = false ->
  c <> underscore -> c <> 43 -> c <> 45 ->
  parse_sheet ud mx (Some s) = Some (KStr s).
Proof.
  intros Hin Hascii Hdig Hsp Hu Hplus Hminus. simpl.
  rewrite (py_int_bad ud mx s c); try done.
  unfold digit_value. rewrite Hsp.
  apply N.ltb_lt in Hascii as ->.
  unfold is_ascii_digit in Hdig. by rewrite Hdig.
Qed.

Lemma parse_sheet_name_witness :
  parse_sheet Demo.no_unicode_digit Demo.max_str_digits
    (Some (lit "Sheet1"))
  = Some (KStr (lit "Sheet1")).
Proof.
  apply (parse_sheet_name Demo.no_unicode_digit Demo.max_str_digits
           (lit "Sheet1") 83).
  - apply list_elem_of_here.
  - reflexivity.
  - reflexivity.
  - reflexivity.
  - discriminate.
  - discriminate.
  - discriminate.
Defined.

Lemma lstrip_drop_all p (a s : pystr) :
  Forall (fun c => p c = true) a -> Str.lstrip p (a ++ s) = Str.lstrip p s.
Proof. induction 1 as [|c r Hc Hr IH]; simpl; [done|]. by rewrite Hc. Qed.

Lemma strip_padded p (a s b : pystr) :
  Forall (fun c => p c = true) a -> Forall (fun c => p c = true) b ->
  s <> [] -> clean_ends p s ->
  Str.strip p (a ++ s ++ b) = s.
Proof.
  intros Ha Hb Hs [Hh Hl]. unfold Str.strip, Str.rstrip.
  rewrite lstrip_drop_all by done.
  rewrite (lstrip_id p (s ++ b)).
  - rewrite rev_app_distr, lstrip_drop_all.
    + rewrite lstrip_id; [apply rev_involutive|].
      intros c. rewrite head_rev. apply Hl.
    + apply Forall_forall. intros c Hc. apply (proj1 (elem_rev b c)) in Hc.
      rewrite Forall_forall in Hb. by apply Hb.
  - intros c. destruct s; [done|]. simpl. apply Hh.
Qed.

Lemma py_int_padded ud mx (a body b : pystr) :
  Forall (fun c => int_space c = true) a ->
  Forall (fun c => int_space c = true) b ->
  body <> [] -> clean_ends int_space body ->
  py_int ud mx (a ++ body ++ b) = py_int ud mx body.
Proof.
  intros Ha Hb Hne Hends. unfold py_int.
  by rewrite strip_padded, strip_id.
Qed.

Lemma signed_clean_ends sign ds :
  int_space sign = false ->
  ds <> [] -> Forall (fun c => is_ascii_digit c = true) ds ->
  clean_ends int_space (sign :: ds).
Proof.
  intros Hsign Hne Hds.
  destruct (clean_ends_int_space _ (digits_clean_ends ds Hds)) as [_ Hl].
  split; intros c.
  - by intros [= <-].
  - destruct ds; [done|]. rewrite last_cons_cons. apply Hl.
Qed.

Lemma py_int_signed ud mx ds :
  ds <> [] -> Forall (fun c => is_ascii_digit c = true) ds ->
  over_limit mx (N.of_nat (length ds)) = false ->
  py_int ud mx (43 :: ds) = Some (decimal ds)
  /\ py_int ud mx (45 :: ds) = Some (- decimal ds)%Z.
Proof.
  intros Hne Hds Hlim. unfold py_int.
  rewrite !strip_id by (by apply signed_clean_ends).
  simpl. by rewrite digits_int_ascii, Hlim.
Qed.

Lemma over_limit_less mx n m :
  n <= m -> over_limit mx m = false -> over_limit mx n = false.
Proof.
  unfold over_limit. intros Hle H.
  rewrite !andb_false_iff, !N.ltb_ge in H.
  rewrite !andb_false_iff, !N.ltb_ge. lia.
Qed.

(** X11. The white space that [int()] skips around the [--sheet]
    argument and a sign before its digits do not keep it from becoming
    an integer, as long as the digits are within the interpreter's
    limit: the digits alone, or with a plus sign, select the key they
    write, with a minus sign the negative key; and a leading zero
    changes nothing. *)
Theorem parse_sheet_padded (ud : char -> option Z) (mx : N)
    (a ds b : pystr) :
  Forall (fun c => int_space c = true) a ->
  Forall (fun c => int_space c = true) b ->
  ds <> [] -> Forall (fun c => is_ascii_digit c = true) ds ->
  over_limit mx (N.of_nat (S (length ds))) = false ->
  parse_sheet ud mx (Some (a ++ ds ++ b)) = Some (KInt (decimal ds))
  /\ parse_sheet ud mx (Some (a ++ (43 :: ds) ++ b))
     = Some (KInt (decimal ds))
  /\ parse_sheet ud mx (Some (a ++ (45 :: ds) ++ b))
     = Some (KInt (- decimal ds))
  /\ parse_sheet ud mx (Some (a ++ (48 :: ds) ++ b))
     = Some (KInt (decimal ds)).
Proof.
  intros Ha Hb Hne Hds Hlim0.
  assert (over_limit mx (N.of_nat (length ds)) = false) as Hlim.
  { apply (over_limit_less mx _ (N.of_nat (S (length ds)))); [lia|done]. }
  destruct (py_int_signed ud mx ds Hne Hds Hlim) as [Hplus Hminus].
  assert (Forall (fun c => is_ascii_digit c = true) (48 :: ds)) as Hds0
    by (by constructor).
  unfold parse_sheet.
  rewrite !py_int_padded; try done.
  - rewrite Hplus, Hminus, !py_int_digits by done.
    change (length (48 :: ds)) with (S (length ds)).
    by rewrite Hlim, Hlim0.
  - by apply clean_ends_int_space, digits_clean_ends.
  - by apply signed_clean_ends.
  - by apply signed_clean_ends.
  - by apply clean_ends_int_space, digits_clean_ends.
Qed.

Lemma parse_sheet_padded_witness :
  parse_sheet Demo.no_unicode_digit Demo.max_str_digits
    (Some (lit " 12 ")) = Some (KInt 12)
  /\ parse_sheet Demo.no_unicode_digit Demo.max_str_digits
       (Some (lit " +12 ")) = Some (KInt 12)
  /\ parse_sheet Demo.no_unicode_digit Demo.max_str_digits
       (Some (lit " -12 ")) = Some (KInt (-12))
  /\ parse_sheet Demo.no_unicode_digit Demo.max_str_digits
       (Some (lit " 012 ")) = Some (KInt 12).
Proof.
  apply (parse_sheet_padded Demo.no_unicode_digit Demo.max_str_digits
           (lit " ") (lit "12") (lit " ")).
  - repeat constructor.
  - repeat constructor.
  - discriminate.
  - repeat constructor.
  - reflexivity.
Defined.

(** ** More on the column names *)

Lemma replace_no_space s : 32 ∉ Str.replace 32 underscore s.
Proof.
  unfold Str.replace. intros H.
  apply list_elem_of_In, in_map_iff in H as (c & Hc & _).
  destruct (N.eqb_spec c 32); [discriminate Hc|congruence].
Qed.

(** X12. A normalised column name holds no space and has no white space
    at either end. *)
Theorem normalize_name_clean (c : label) :
  (32 ∉ normalize_name c)
  /\ clean_ends Str.isspace (normalize_name c).
Proof.
  split; [apply replace_no_space|].
  apply replace_space_clean_ends, strip_clean_ends.
Qed.

(** X13. The normalisation is not injective: a name without white space
    at its ends that holds a space, and the same name with underscores
    for its spaces, are two names with one normalised name, so the
    normalised table then has two columns of one name. *)
Theorem normalize_name_collision (s : pystr) :
  clean_ends Str.isspace s -> 32 ∈ s ->
  LStr s <> LStr (Str.replace 32 underscore s)
  /\ normalize_name (LStr s)
     = normalize_name (LStr (Str.replace 32 underscore s)).
Proof.
  intros Hends Hsp. split.
  - intros [= E]. rewrite E in Hsp. by apply replace_no_space in Hsp.
  - unfold normalize_name. simpl.
    rewrite (strip_id _ _ Hends).
    rewrite strip_id by (by apply replace_space_clean_ends).
    by rewrite replace_space_fixed.
Qed.

Lemma normalize_name_collision_witness :
  LStr (lit "unit price") <> LStr (lit "unit_price")
  /\ normalize_name (LStr (lit "unit price"))
     = normalize_name (LStr (lit "unit_price")).
Proof.
  apply (normalize_name_collision (lit "unit price")).
  - split; intros c [= <-]; reflexivity.
  - apply (bool_decide_unpack _). vm_compute. reflexivity.
Defined.

(** ** More on the tables *)

Lemma renamed_map t :
  renamed t
  = List.map (fun lc => (LStr (normalize_name lc.1), lc.2)) t.
Proof.
  unfold renamed, columns, values.
  induction t as [|[l c] r IH]; simpl; [done|]. by rewrite IH.
Qed.

Lemma filter_renamed (P : dtype -> bool) t :
  List.filter (fun lc => P (col_dtype lc.2)) (renamed t)
  = renamed (List.filter (fun lc => P (col_dtype lc.2)) t).
Proof.
  rewrite !renamed_map.
  induction t as [|[l c] r IH]; simpl; [done|].
  destruct (P (col_dtype c)); simpl; by rewrite IH.
Qed.

(** X14. The normalisation never fails and changes names only: the copy
    has as many columns as the input, and its numeric and its
    non-numeric columns are those of the input, renamed, with the same
    data in the same order. *)
Theorem normalized_copy_keeps_dtypes (df : table) :
  normalized_copy df = Ok (renamed df)
  /\ length (renamed df) = length df
  /\ select_number (renamed df) = renamed (select_number df)
  /\ select_non_number (renamed df) = renamed (select_non_number df)
  /\ values (select_number (renamed df)) = values (select_number df)
  /\ values (select_non_number (renamed df))
     = values (select_non_number df).
Proof.
  assert (select_number (renamed df) = renamed (select_number df)) as E1
    by apply (filter_renamed is_number).
  assert (select_non_number (renamed df) = renamed (select_non_number df))
    as E2 by apply (filter_renamed (fun d => negb (is_number d))).
  split; [apply normalized_copy_eq|].
  split; [by rewrite renamed_map, length_map|].
  split; [done|]. split; [done|].
  by rewrite E1, E2, !renamed_values.
Qed.

(** X15. Every column is either numeric or not: the two selections
    split the table, each column in exactly one of them, so each column
    is handled by the numeric summary or by the loop of the top-20
    tables, never by both. *)
Theorem select_partition (t : table) :
  t ≡ₚ select_number t ++ select_non_number t
  /\ (length (select_number t) + length (select_non_number t))%nat
     = length t
  /\ (forall lc, lc ∈ select_number t -> lc ∉ select_non_number t).
Proof.
  assert (t ≡ₚ select_number t ++ select_non_number t) as Hperm.
  { unfold select_number, select_non_number.
    induction t as [|lc r IH]; simpl; [done|].
    destruct (is_number (col_dtype lc.2)); simpl.
    - by constructor.
    - rewrite <- Permutation_middle. by constructor. }
  split; [done|]. split.
  - rewrite <- length_app. symmetry. by apply Permutation_length.
  - unfold select_number, select_non_number.
    intros lc [_ H1]%list_elem_of_In%filter_In
              [_ H2]%list_elem_of_In%filter_In.
    by rewrite H1 in H2.
Qed.

(** ** More on the export *)

Section ExportAccounting.

Variable os_error : pystr -> content -> option exn.

Lemma written_columns_sublist cat cols :
  written_columns os_error cat cols `sublist_of` cols.
Proof.
  unfold written_columns. induction cols as [|c r IH]; simpl; [done|].
  destruct (written os_error cat c); by constructor.
Qed.

Lemma export_count cat cols :
  (length (written_columns os_error cat cols)
   + length (refusal_warnings os_error cat cols))%nat
  = length cols.
Proof.
  unfold written_columns, written.
  induction cols as [|c r IH]; simpl; [done|].
  destruct (refusal os_error cat c); simpl; lia.
Qed.

(** X16. On a normalised table whose non-numeric columns have distinct
    names, the loop accounts for every such column once: the columns of
    [freq_out] are columns of the table in table order, and their
    number plus the number of records the loop logs, all warnings, is
    the number of non-numeric columns. *)
Theorem export_accounting (df : table) (w : world) :
  NoDup (columns (select_non_number (renamed df))) ->
  exists (freq_out : list label) (w' : world)
         (logged : list (level * list frag)),
    export_categorical os_error (renamed df) w = (Ok freq_out, w')
    /\ log w' = log w ++ logged
    /\ Forall (fun r => r.1 = WARNING) logged
    /\ freq_out `sublist_of` columns (select_non_number (renamed df))
    /\ (length freq_out + length logged)%nat
       = length (select_non_number df).
Proof.
  intros Hnd.
  eexists _, _, _. split; [by apply export_categorical_closed|].
  cbn [log]. split; [done|]. split.
  { generalize (columns (select_non_number (renamed df))).
    intros cols. induction cols as [|c r IH]; simpl; [done|].
    destruct (refusal os_error _ c); [by constructor|done]. }
  split; [apply written_columns_sublist|].
  rewrite export_count. unfold columns. rewrite length_map.
  change (select_non_number (renamed df))
    with (List.filter (fun lc => negb (is_number (col_dtype lc.2)))
            (renamed df)).
  rewrite (filter_renamed (fun d => negb (is_number d))).
  by rewrite renamed_map, length_map.
Qed.

Lemma export_loop_keeps cat cols freq_out w p :
  is_Some (files w !! p) ->
  is_Some (files (export_loop os_error cat cols freq_out w).2 !! p).
Proof.
  revert freq_out w. induction cols as [|c r IH]; intros freq_out w H.
  { done. }
  cbn [export_loop]. unfold bind at 1, lift.
  destruct (value_counts_head (getitem c cat)) as [vc|e]; [|done].
  unfold bind at 1.
  destruct (clean_filename_of c) as [name|e]; [|done].
  unfold bind at 1, try_except, bind at 1, write_file.
  destruct (os_error _ _) as [e|].
  - unfold bind, logger_warning, logger, ret. simpl. by apply IH.
  - unfold ret. apply IH. cbn [files].
    destruct (decide (top20_path name = p)) as [<-|Hne].
    + rewrite lookup_insert_eq. by eexists.
    + by rewrite lookup_insert_ne.
Qed.

(** X17. The loop never removes a file: every path that holds a file
    before the loop holds one after it. *)
Theorem export_keeps_files (df : table) (w : world) (p : pystr) :
  is_Some (files w !! p) ->
  is_Some (files (export_categorical os_error (renamed df) w).2 !! p).
Proof.
  intros H. unfold export_categorical. by apply export_loop_keeps.
Qed.

End ExportAccounting.

Lemma export_accounting_witness :
  exists (freq_out : list label) (w' : world)
         (logged : list (level * list frag)),
    export_categorical (Demo.os_refusing (top20_path (lit "a_b")))
      (renamed Demo.ventas) Demo.empty_world = (Ok freq_out, w')
    /\ log w' = [] ++ logged
    /\ Forall (fun r => r.1 = WARNING) logged
    /\ freq_out
         `sublist_of` columns (select_non_number (renamed Demo.ventas))
    /\ (length freq_out + length logged)%nat = 3%nat.
Proof.
  apply (export_accounting (Demo.os_refusing (top20_path (lit "a_b")))
           Demo.ventas Demo.empty_world).
  apply (bool_decide_unpack _). vm_compute. reflexivity.
Defined.

Lemma export_keeps_files_witness :
  is_Some
    (files
       (export_categorical Demo.os_ok (renamed Demo.ventas)
          (World {[ top20_path (lit "a_b") := JsonFlags [] ]} [])).2
     !! top20_path (lit "a_b")).
Proof.
  apply (export_keeps_files Demo.os_ok Demo.ventas
           (World {[ top20_path (lit "a_b") := JsonFlags [] ]} [])
           (top20_path (lit "a_b"))).
  cbn [files]. rewrite lookup_singleton_eq. by eexists.
Defined.

(** ** The run around the profiling tables *)

Section ProfileFacts.

Variable os_error : pystr -> content -> option exn.
Variable describe_error : table -> option exn.
Variable data_overview : table -> M overview.
Variable data_dictionary : table -> M table.
Variable quality_flags : table -> table -> M flags.
Variable save_dictionary_csv : table -> pystr -> M unit.
Variable plot_missing_bar : table -> pystr -> M unit.
Variable plot_histograms : table -> pystr -> Z -> M unit.
Variable plot_boxplots : table -> pystr -> Z -> M unit.
Variable plot_correlation : table -> pystr -> M unit.

#[local] Abbreviation a_profile :=
  (profile os_error describe_error data_overview data_dictionary
     quality_flags save_dictionary_csv plot_missing_bar plot_histograms
     plot_boxplots plot_correlation).
#[local] Abbreviation a_report :=
  (report os_error data_overview data_dictionary quality_flags
     save_dictionary_csv plot_missing_bar plot_histograms plot_boxplots
     plot_correlation).

Ltac step_calls :=
  repeat (match goal with
          | |- context [match ?m ?x with _ => _ end] =>
              destruct (m x) as [[?|?] ?]
          end; try done).

(** [profile] is its first half followed by its second. *)
Lemma profile_split args df w :
  a_profile args df w
  = match a_report args df w with
    | (Ok t, w1) => export_tables os_error describe_error t w1
    | (Raise e, w1) => (Raise e, w1)
    end.
Proof.
  unfold profile, report, export_tables, bind, lift, ret.
  rewrite normalized_copy_eq.
  unfold logger_info, logger, write_file.
  destruct (os_error _ (CsvFrame (renamed df) false)); [done|].
  step_calls.
  destruct (os_error _ _); [done|]. step_calls.
  destruct (os_error _ _); [done|]. step_calls.
Qed.

Lemma report_result args df w t w1 :
  a_report args df w = (Ok t, w1) -> t = renamed df.
Proof.
  unfold report, bind, lift, ret.
  rewrite normalized_copy_eq.
  unfold logger_info, logger, write_file.
  destruct (os_error _ (CsvFrame (renamed df) false)); [done|].
  step_calls.
  destruct (os_error _ _); [done|]. step_calls.
  destruct (os_error _ _); [done|]. step_calls.
  by intros [= <- _].
Qed.

(** X18. A failure of the numeric summary is not caught: when the first
    half of the run has succeeded, the table has a numeric column, and
    either [describe] raises or the operating system refuses
    [numeric_summary.csv], the run ends with that exception, exit
    status 1, and without any top-20 table written or any further
    record logged. *)
Theorem numeric_summary_failure_aborts args df w t w1 e :
  a_report args df w = (Ok t, w1) ->
  select_number t <> [] ->
  describe_error (select_number t) = Some e
  \/ (describe_error (select_number t) = None
      /\ os_error (lit "reports/numeric_summary.csv")
           (CsvDescribe (select_number t)) = Some e) ->
  a_profile args df w = (Raise e, w1)
  /\ exit_status (a_profile args df w).1 = 1%Z.
Proof.
  intros Hrep Hnum Hfail. rewrite profile_split, Hrep.
  unfold export_tables, bind at 1.
  rewrite export_numeric_summary_some by done.
  destruct Hfail as [-> | [-> Hos]]; [done|].
  unfold write_file. by rewrite Hos.
Qed.

(** X19. Once the first half of the run has succeeded, the non-numeric
    columns of the normalised table have distinct names, and the
    numeric summary is written or not needed, the run returns normally,
    whatever happens to the writes of the top-20 tables; its last log
    record is the closing one. *)
Theorem profile_returns args df w t w1 :
  a_report args df w = (Ok t, w1) ->
  NoDup (columns (select_non_number t)) ->
  select_number t = []
  \/ (describe_error (select_number t) = None
      /\ os_error (lit "reports/numeric_summary.csv")
           (CsvDescribe (select_number t)) = None) ->
  exists w',
    a_profile args df w = (Ok tt, w')
    /\ exit_status (a_profile args df w).1 = 0%Z
    /\ last (log w') = Some listo.
Proof.
  intros Hrep Hnd Hnum.
  assert (exists w', a_profile args df w = (Ok tt, w')
                     /\ last (log w') = Some listo) as (w' & E & Hl).
  { rewrite profile_split, Hrep.
    pose proof (report_result _ _ _ _ _ Hrep) as ->.
    unfold export_tables, bind at 1.
    assert (exists w2,
              export_numeric_summary os_error describe_error
                (renamed df) w1 = (Ok tt, w2)) as [w2 Hw2].
    { destruct Hnum as [E | [Hd Hos]].
      - unfold export_numeric_summary. rewrite E. by eexists.
      - unfold export_numeric_summary, write_file.
        destruct (0 <? _); [|by eexists].
        rewrite Hd, Hos. by eexists. }
    rewrite Hw2. unfold bind at 1.
    rewrite export_categorical_closed by done.
    unfold logger_info, logger. cbn [files log].
    eexists. split; [done|]. cbn [log]. apply last_snoc. }
  exists w'. by rewrite E.
Qed.

End ProfileFacts.

Lemma numeric_summary_failure_aborts_witness :
  (Demo.profile Edge.os_no_summary (Demo.args None) Demo.ventas
     Demo.empty_world
   = (Raise (Exn "OSError" (lit "Invalid argument")),
      (Edge.report Edge.os_no_summary (Demo.args None) Demo.ventas
         Demo.empty_world).2)
   /\ exit_status
        (Demo.profile Edge.os_no_summary (Demo.args None) Demo.ventas
           Demo.empty_world).1 = 1%Z)
  /\ (Demo.profile Demo.os_ok (Demo.args None) Edge.compleja
        Demo.empty_world
      = (Raise (Exn "TypeError" (lit "complex data")),
         (Edge.report Demo.os_ok (Demo.args None) Edge.compleja
            Demo.empty_world).2)
      /\ exit_status
           (Demo.profile Demo.os_ok (Demo.args None) Edge.compleja
              Demo.empty_world).1 = 1%Z).
Proof.
  split.
  - apply (numeric_summary_failure_aborts Edge.os_no_summary
             Demo.describe_error
             Demo.data_overview Demo.data_dictionary Demo.quality_flags
             Demo.save_dictionary_csv Demo.plot_missing_bar
             Demo.plot_histograms Demo.plot_boxplots Demo.plot_correlation
             (Demo.args None) Demo.ventas Demo.empty_world
             (renamed Demo.ventas)).
    + vm_compute. reflexivity.
    + vm_compute. discriminate.
    + right. split; reflexivity.
  - apply (numeric_summary_failure_aborts Demo.os_ok
             Demo.describe_error
             Demo.data_overview Demo.data_dictionary Demo.quality_flags
             Demo.save_dictionary_csv Demo.plot_missing_bar
             Demo.plot_histograms Demo.plot_boxplots Demo.plot_correlation
             (Demo.args None) Edge.compleja Demo.empty_world
             (renamed Edge.compleja)).
    + vm_compute. reflexivity.
    + vm_compute. discriminate.
    + left. reflexivity.
Defined.

Lemma profile_returns_witness :
  exists w',
    Demo.profile (Demo.os_refusing (top20_path (lit "a_b")))
      (Demo.args None) Demo.ventas Demo.empty_world = (Ok tt, w')
    /\ exit_status
         (Demo.profile (Demo.os_refusing (top20_path (lit "a_b")))
            (Demo.args None) Demo.ventas Demo.empty_world).1 = 0%Z
    /\ last (log w') = Some listo.
Proof.
  apply (profile_returns (Demo.os_refusing (top20_path (lit "a_b")))
           Demo.describe_error
           Demo.data_overview Demo.data_dictionary Demo.quality_flags
           Demo.save_dictionary_csv Demo.plot_missing_bar
           Demo.plot_histograms Demo.plot_boxplots Demo.plot_correlation
           (Demo.args None) Demo.ventas Demo.empty_world
           (renamed Demo.ventas)
           (Edge.report (Demo.os_refusing (top20_path (lit "a_b")))
              (Demo.args None) Demo.ventas Demo.empty_world).2).
  - vm_compute. reflexivity.
  - apply (bool_decide_unpack _). vm_compute. reflexivity.
  - right. split; reflexivity.
Defined.

Section MainEdge.

Variable unicode_decimal : char -> option Z.
Variable max_str_digits : N.
Variable os_error : pystr -> content -> option exn.
Variable describe_error : table -> option exn.
Variable ensure_dir : pystr -> M unit.
Variable read_any : pystr -> pystr -> option key -> M loaded.
Variable data_overview : table -> M overview.
Variable data_dictionary : table -> M table.
Variable quality_flags : table -> table -> M flags.
Variable save_dictionary_csv : table -> pystr -> M unit.
Variable plot_missing_bar : table -> pystr -> M unit.
Variable plot_histograms : table -> pystr -> Z -> M unit.
Variable plot_boxplots : table -> pystr -> Z -> M unit.
Variable plot_correlation : table -> pystr -> M unit.

(** X20. When the loader returns a mapping without any sheet and no
    selector was given, [main] ends with the [IndexError] of line 65:
    exit status 1, nothing logged and no file written after the loader
    returned. *)
Theorem main_empty_mapping args w w1 :
  load_data unicode_decimal max_str_digits ensure_dir read_any args w
  = (Ok (None, Multiple []), w1) ->
  main unicode_decimal max_str_digits os_error describe_error ensure_dir
    read_any data_overview data_dictionary quality_flags
    save_dictionary_csv plot_missing_bar plot_histograms plot_boxplots
    plot_correlation args w
  = (Raise no_first_sheet, w1)
  /\ exit_status
       (main unicode_decimal max_str_digits os_error describe_error
          ensure_dir read_any data_overview data_dictionary quality_flags
          save_dictionary_csv plot_missing_bar plot_histograms
          plot_boxplots plot_correlation args w).1 = 1%Z.
Proof.
  intros H.
  by rewrite (main_after_load unicode_decimal max_str_digits os_error
                describe_error ensure_dir read_any
                data_overview data_dictionary quality_flags
                save_dictionary_csv plot_missing_bar plot_histograms
                plot_boxplots plot_correlation _ _ _ _ _ H).
Qed.

End MainEdge.

Lemma main_empty_mapping_witness :
  Edge.main (Demo.args None) Demo.empty_world
  = (Raise no_first_sheet, Demo.loaded_world)
  /\ exit_status (Edge.main (Demo.args None) Demo.empty_world).1 = 1%Z.
Proof.
  apply (main_empty_mapping Demo.no_unicode_digit Demo.max_str_digits
           Demo.os_ok Demo.describe_error
           Demo.ensure_dir Edge.read_any Demo.data_overview
           Demo.data_dictionary Demo.quality_flags Demo.save_dictionary_csv
           Demo.plot_missing_bar Demo.plot_histograms Demo.plot_boxplots
           Demo.plot_correlation (Demo.args None) Demo.empty_world
           Demo.loaded_world).
  reflexivity.
Defined.

(** ** Files of columns with distinct sanitised names *)

Lemma NoDup_map_split {A B} (f : A -> B) (l1 l2 : list A) (x : A) :
  NoDup (List.map f (l1 ++ x :: l2)) ->
  forall y, y ∈ l2 -> f y <> f x.
Proof.
  rewrite map_app. simpl. intros Hnd y Hy E.
  apply NoDup_app in Hnd as (_ & _ & Hnd).
  apply NoDup_cons in Hnd as [Hx _]. apply Hx.
  rewrite <- E. apply list_elem_of_In, in_map, list_elem_of_In, Hy.
Qed.

Lemma NoDup_map_1 {A B} (f : A -> B) (l : list A) :
  NoDup (List.map f l) -> NoDup l.
Proof.
  induction l as [|x l IH]; simpl; [constructor|].
  intros [Hx Hl]%NoDup_cons. apply NoDup_cons. split; [|by apply IH].
  intros Hin. apply Hx.
  apply list_elem_of_In, in_map, list_elem_of_In, Hin.
Qed.

(** X21. When the sanitised names of the non-numeric columns are
    pairwise distinct, the file of every column whose write is accepted
    holds the counts of that very column. *)
Theorem export_own_table (os_error : pystr -> content -> option exn)
    (df : table) (w : world) (c : label) (col : column) :
  NoDup (List.map (fun c => clean_filename (py_str c))
           (columns (select_non_number (renamed df)))) ->
  (c, col) ∈ select_non_number (renamed df) ->
  os_error (top20_path (clean_filename (py_str c)))
    (CsvValueCounts [col]) = None ->
  files (export_categorical os_error (renamed df) w).2
    !! top20_path (clean_filename (py_str c))
  = Some (CsvValueCounts [col]).
Proof.
  intros Hclean Hin Hos.
  pose proof (NoDup_map_1 _ _ Hclean) as Hnd.
  pose proof (entry_columns _ _ _ Hin) as Hc.
  assert (refusal os_error (select_non_number (renamed df)) c = None)
    as Hr by (by rewrite (refusal_entry os_error _ c col)).
  rewrite export_categorical_closed by done. cbn [snd files].
  apply list_elem_of_split in Hc as (l1 & l2 & Hcols).
  rewrite Hcols in Hclean |- *.
  rewrite <- (getitem_unique _ c col Hnd Hin).
  apply (files_after_last os_error (select_non_number (renamed df))
           l1 c l2); [done|].
  intros c' Hc' _ Hp. apply top20_path_inj in Hp.
  by apply (NoDup_map_split _ _ _ _ Hclean c' Hc').
Qed.

Lemma export_own_table_witness :
  files
    (export_categorical
       (Demo.os_refusing (top20_path (lit "ciudad_pais")))
       (renamed Edge.clientes) Demo.empty_world).2
    !! top20_path (clean_filename (lit "nombre"))
  = Some (CsvValueCounts [Column Object [StrCell (lit "Ana"); NA]]).
Proof.
  apply (export_own_table
           (Demo.os_refusing (top20_path (lit "ciudad_pais")))
           Edge.clientes Demo.empty_world
           (LStr (lit "nombre")) (Column Object [StrCell (lit "Ana"); NA])).
  - apply (bool_decide_unpack _). vm_compute. reflexivity.
  - apply list_elem_of_here.
  - reflexivity.
Defined.

(** ** The loop and repeated names *)

Lemma getitem_single_NoDup (t : table) :
  Forall (fun c => length (getitem c t) = 1%nat) (columns t) ->
  NoDup (columns t).
Proof.
  induction t as [|[c0 col0] r IH]; simpl; [constructor|].
  intros [H0 Hr]%Forall_cons.
  rewrite getitem_cons in H0. simpl in H0.
  rewrite bool_decide_true in H0 by done. simpl in H0.
  assert (c0 ∉ columns r) as Hc0.
  { intros Hin%getitem_present. destruct (getitem c0 r); [done|].
    simpl in H0. lia. }
  apply NoDup_cons. split; [done|]. apply IH.
  rewrite Forall_forall in Hr |- *. intros c Hc.
  specialize (Hr c Hc). rewrite getitem_cons in Hr. simpl in Hr.
  rewrite bool_decide_false in Hr; [done|]. by intros ->.
Qed.

Lemma export_loop_raises os_error cat cols freq_out w :
  Forall (fun c => is_str c = true) cols ->
  Forall (fun c => c ∈ columns cat) cols ->
  Exists (fun c => length (getitem c cat) <> 1%nat) cols ->
  exists w',
    export_loop os_error cat cols freq_out w
    = (Raise (Exn "ValueError" (lit "Grouper not 1-dimensional")), w').
Proof.
  intros Hstr. revert freq_out w.
  induction Hstr as [|c r Hc Hr IH]; intros freq_out w Hin Hex.
  { by apply Exists_nil in Hex. }
  apply Forall_cons in Hin as [Hcin Hin].
  pose proof (getitem_present c cat Hcin) as Hne.
  destruct c as [s|]; [|done].
  cbn [export_loop]. unfold bind at 1, lift.
  destruct (getitem (LStr s) cat) as [|col [|col' rest]] eqn:E; [done| |].
  - apply Exists_cons in Hex as [Hex|Hex]; [by rewrite E in Hex|].
    simpl. unfold bind at 1. simpl.
    unfold bind at 1, try_except, bind at 1, write_file.
    destruct (os_error _ _); simpl; by apply IH.
  - simpl. by eexists.
Qed.

(** X22. The loop over the non-numeric columns of the normalised table
    returns exactly when their names are distinct; with a repeated name
    the counts of line 114, taken outside the [try], raise [ValueError]
    and end the loop, whatever the operating system answers. *)
Theorem export_returns_iff (os_error : pystr -> content -> option exn)
    (df : table) (w : world) :
  ((exists freq_out w',
      export_categorical os_error (renamed df) w = (Ok freq_out, w'))
   <-> NoDup (columns (select_non_number (renamed df))))
  /\ (~ NoDup (columns (select_non_number (renamed df))) ->
      exists w',
        export_categorical os_error (renamed df) w
        = (Raise (Exn "ValueError" (lit "Grouper not 1-dimensional")),
           w')).
Proof.
  set (cat := select_non_number (renamed df)).
  assert (~ NoDup (columns cat) ->
          exists w',
            export_categorical os_error (renamed df) w
            = (Raise (Exn "ValueError" (lit "Grouper not 1-dimensional")),
               w')) as Hbad.
  { intros Hnd. unfold export_categorical. fold cat.
    apply export_loop_raises.
    - apply select_non_number_is_str, renamed_is_str.
    - by apply Forall_forall.
    - apply not_Forall_Exists; [apply _|].
      intros H. by apply Hnd, getitem_single_NoDup. }
  split; [|done]. split.
  - intros (freq_out & w' & Hrun).
    destruct (decide (NoDup (columns cat))) as [|Hnd]; [done|].
    destruct (Hbad Hnd) as [w2 Hraise]. congruence.
  - intros Hnd. eexists _, _. by apply export_categorical_closed.
Qed.

Lemma export_returns_iff_witness :
  exists w',
    export_categorical Demo.os_ok (renamed Edge.repetida) Demo.empty_world
    = (Raise (Exn "ValueError" (lit "Grouper not 1-dimensional")), w').
Proof.
  apply (export_returns_iff Demo.os_ok Edge.repetida Demo.empty_world).
  intros H. apply NoDup_cons in H as [H _]. apply H.
  apply list_elem_of_here.
Defined.
